(** * tsfresh.feature_extraction.settings

    A shallow embedding of [tsfresh/feature_extraction/settings.py]:
    the column-name parser [from_columns] and the family of settings
    objects ([ComprehensiveFCParameters] and its four filtered variants).

    Python dictionaries are finite maps ([gmap]); dictionary equality in
    Python does not look at insertion order, and neither does equality of
    [gmap]s.  Exceptions are the [Err] side of [pyresult]. *)

From Stdlib Require Import ZArith String Ascii List Bool Floats Uint63.
From stdpp Require Import base option gmap strings list fin_maps pretty.

Open Scope string_scope.
Open Scope list_scope.
Set Warnings "-inexact-float".

(** ** Python values, exceptions *)

Module Py.

(** The objects that show up as entries of [columns] or as attributes of a
    feature calculator: [None], booleans, integers, strings and class
    objects (identified by their qualified name). *)
Inductive pyobj : Type :=
  | PyNone
  | PyBool (b : bool)
  | PyInt (z : Z)
  | PyStr (s : string)
  | PyClass (qualname : string).

(** [a == b].  A boolean is an integer in Python: [True == 1]. *)
Definition py_eq (a b : pyobj) : bool :=
  match a, b with
  | PyNone, PyNone => true
  | PyBool x, PyBool y => Bool.eqb x y
  | PyBool x, PyInt z | PyInt z, PyBool x => (Z.b2z x =? z)%Z
  | PyInt x, PyInt y => (x =? y)%Z
  | PyStr x, PyStr y => bool_decide (x = y)
  | PyClass x, PyClass y => bool_decide (x = y)
  | _, _ => false
  end.

(** [bool(a)]. *)
Definition py_truthy (a : pyobj) : bool :=
  match a with
  | PyNone => false
  | PyBool b => b
  | PyInt z => negb (z =? 0)%Z
  | PyStr s => negb (bool_decide (s = ""))
  | PyClass _ => true
  end.

(** [str(a)], used by [str.format]. *)
Definition py_str (a : pyobj) : string :=
  match a with
  | PyNone => "None"
  | PyBool true => "True"
  | PyBool false => "False"
  | PyInt z => pretty z
  | PyStr s => s
  | PyClass q => "<class '" +:+ q +:+ "'>"
  end.

(** [a in l] for a list [l]. *)
Definition py_in (a : pyobj) (l : list pyobj) : bool :=
  existsb (py_eq a) l.

Inductive pyexn : Type :=
  | TypeError (msg : string)
  | ValueError (msg : string)
  | AttributeError (msg : string)
  | IndexError (msg : string).

Inductive pyresult (A : Type) : Type :=
  | Ok (a : A)
  | Err (e : pyexn).
Arguments Ok {A} a.
Arguments Err {A} e.

(** Raising propagates: the usual error monad, with stdpp's [x ← r; k]. *)
#[export] Instance pyresult_ret : MRet pyresult := λ A a, Ok a.
#[export] Instance pyresult_bind : MBind pyresult := λ A B k r,
  match r with
  | Ok a => k a
  | Err e => Err e
  end.

End Py.
Export Py.

(** ** [str.split('__')] and ['__'.join] *)

Module Str.

Definition is_us (c : ascii) : bool := Ascii.eqb c "_".

(** Put [c] in front of the field being read. *)
Definition push (c : ascii) (fields : list string) : list string :=
  match fields with
  | field :: fields => String c field :: fields
  | [] => [String c ""]
  end.

(** [s.split('__')]: cut at every occurrence of the delimiter, scanning
    from the left; occurrences do not overlap. *)
Fixpoint split (s : string) : list string :=
  match s with
  | "" => [""]
  | String c rest =>
      match rest with
      | String c' rest' =>
          if is_us c && is_us c' then "" :: split rest'
          else push c (split rest)
      | "" => push c (split rest)
      end
  end.

(** ['__'.join(fields)]. *)
Fixpoint join (fields : list string) : string :=
  match fields with
  | [] => ""
  | [f] => f
  | f :: rest => f +:+ "__" +:+ join rest
  end.

(** The delimiter does not occur in [s]. *)
Fixpoint no_delim (s : string) : bool :=
  match s with
  | "" => true
  | String c rest =>
      match rest with
      | String c' _ => negb (is_us c && is_us c') && no_delim rest
      | "" => true
      end
  end.

(** [s] does not end with an underscore. *)
Fixpoint no_trailing_us (s : string) : bool :=
  match s with
  | "" => true
  | String c rest =>
      match rest with
      | "" => negb (is_us c)
      | String _ _ => no_trailing_us rest
      end
  end.

(** A field that can be followed by the delimiter and read back. *)
Definition inner_field (s : string) : bool := no_delim s && no_trailing_us s.

(** Fields that [split] reads back from their [join]: none holds the
    delimiter, and none but the last ends with an underscore. *)
Fixpoint readable (fields : list string) : bool :=
  match fields with
  | [] => false
  | [f] => no_delim f
  | f :: rest => inner_field f && readable rest
  end.

End Str.

(** ** Parameter dictionaries *)

Module Param.

(** [float(z)] for a small integer [z]. *)
Definition float_of_Z (z : Z) : float :=
  if (z <? 0)%Z then PrimFloat.opp (PrimFloat.of_uint63 (Uint63.of_Z (- z)))
  else PrimFloat.of_uint63 (Uint63.of_Z z).

(** The value of one parameter: "numeric, string, boolean, or a small
    tuple".  Floats are binary64, as in Python. *)
Inductive pyval : Type :=
  | VInt (z : Z)
  | VFloat (x : float)
  | VBool (b : bool)
  | VStr (s : string)
  | VTuple (items : list Z).

(** [range(a, b)]. *)
Definition range (a b : Z) : list Z := seqZ a (b - a).

End Param.
Export Param.

(** A parameter dict, e.g. [{"lag": 1}]. *)
Abbreviation config := (gmap string pyval).

(** The value a settings object holds for a calculator: [None], or a list
    of parameter dicts. *)
Abbreviation fc_value := (option (list (gmap string pyval))).

(** A settings object: calculator name to [fc_value]. *)
Abbreviation fc_parameters := (gmap string (option (list (gmap string pyval)))).

(** What [from_columns] returns: kind to settings object. *)
Abbreviation kind_to_fc := (gmap string (gmap string (option (list (gmap string pyval))))).

(** [not d] for a dict [d]. *)
Definition dict_is_empty {V} (d : gmap string V) : bool :=
  match map_to_list d with
  | [] => true
  | _ :: _ => false
  end.

(** [d.update(items)], and the dict literal [{k1: v1, ...}]: later items
    win. *)
Definition dict_update {V} (d : gmap string V) (items : list (string * V))
  : gmap string V :=
  fold_left (λ acc kv, <[kv.1 := kv.2]> acc) items d.

Definition dict_literal {V} (items : list (string * V)) : gmap string V :=
  dict_update ∅ items.

(** ** The module [feature_calculators], as this file reads it *)

(** One attribute [func] of the module [feature_calculators].  The file
    looks at [callable(func)], at the number of positional arguments
    [len(getfullargspec(func).args)] (read only for callables that carry
    [fctype]), and at five attributes that may be absent. *)
Record pyattr : Type := {
  is_callable : bool;
  n_args : nat;
  fctype : option pyobj;
  minimal : option pyobj;
  high_comp_cost : option pyobj;
  input : option pyobj;
  index_type : option pyobj;
}.

(** [feature_calculators.__dict__]. *)
Abbreviation registry := (gmap string pyattr).

(** [hasattr(feature_calculators, name)]: the module defines neither
    [__getattr__] nor properties, so this is membership in its [__dict__]
    (the attributes of the module type itself all contain the delimiter
    and never come out of [split]). *)
Definition hasattr_module (feature_calculators : registry) (name : string)
  : bool :=
  bool_decide (is_Some (feature_calculators !! name)).

(** [getattr(f, attr, default)]. *)
Definition getattr_default (a : option pyobj) (default : pyobj) : pyobj :=
  match a with
  | Some v => v
  | None => default
  end.

(** The attribute is set, and set to a true value. *)
Definition flag_true (a : option pyobj) : bool :=
  match a with
  | Some v => py_truthy v
  | None => false
  end.

(** [pd.DatetimeIndex]. *)
Definition pd_DatetimeIndex : pyobj :=
  PyClass "pandas.core.indexes.datetimes.DatetimeIndex".

(** ** Settings objects *)

Module FC.

(** The literal handed to [name_to_param.update], lines 113 to 206, in
    source order; disabled (commented) entries are not part of it. *)
Definition overlay : list (string * fc_value) :=
  [ ("time_reversal_asymmetry_statistic",
      Some ((λ lag, {["lag" := VInt lag]}) <$> range 1 4));
    ("symmetry_looking",
      Some ((λ r, {["r" := VFloat (float_of_Z r * 0.05)]}) <$> range 0 20));
    ("large_standard_deviation",
      Some ((λ r, {["r" := VFloat (float_of_Z r * 0.05)]}) <$> range 0 10));
    ("quantile",
      Some ((λ q, {["q" := VFloat q]}) <$>
            [0.1; 0.2; 0.3; 0.4; 0.6; 0.7; 0.8; 0.9]%float));
    ("autocorrelation",
      Some ((λ lag, {["lag" := VInt lag]}) <$> range 0 10));
    ("number_cwt_peaks", Some ((λ n, {["n" := VInt n]}) <$> [1; 5]%Z));
    ("number_peaks", Some ((λ n, {["n" := VInt n]}) <$> [1; 3; 5]%Z));
    ("large_number_of_peaks",
      Some ((λ n, {["n" := VInt n]}) <$> [1; 3; 5]%Z));
    ("binned_entropy",
      Some ((λ max_bins, {["max_bins" := VInt max_bins]}) <$> [10]%Z));
    ("index_mass_quantile",
      Some ((λ q, {["q" := VFloat q]}) <$>
            [0.1; 0.2; 0.3; 0.4; 0.6; 0.7; 0.8; 0.9]%float));
    ("cwt_coefficients",
      Some (width ← [[2; 5; 10; 20]%Z];
            coeff ← range 0 15;
            w ← [2; 5; 10; 20]%Z;
            [dict_literal [("widths", VTuple width); ("coeff", VInt coeff);
                           ("w", VInt w)]]));
    ("spkt_welch_density",
      Some ((λ coeff, {["coeff" := VInt coeff]}) <$> [2; 5; 8]%Z));
    ("ar_coefficient",
      Some (coeff ← range 0 5;
            k ← [10]%Z;
            [dict_literal [("coeff", VInt coeff); ("k", VInt k)]]));
    ("mean_abs_change_quantiles",
      Some (ql ← [0.0; 0.2; 0.4; 0.6; 0.8]%float;
            qh ← [0.2; 0.4; 0.6; 0.8; 1.0]%float;
            [dict_literal [("ql", VFloat ql); ("qh", VFloat qh)]]));
    ("fft_coefficient",
      Some ((λ coeff, {["coeff" := VInt coeff]}) <$> range 0 10));
    ("value_count",
      Some ((λ value, {["value" := value]}) <$>
            [VInt 0; VInt 1; VFloat nan; VFloat infinity;
             VFloat neg_infinity]));
    ("range_count",
      Some [dict_literal [("min", VInt (-1)); ("max", VInt 1)]]);
    ("approximate_entropy",
      Some ((λ r, dict_literal [("m", VInt 2); ("r", VFloat r)]) <$>
            [0.1; 0.3; 0.5; 0.7; 0.9]%float)) ].

(** Lines 109 to 111: the parameterless calculators of the module. *)
Definition parameterless (func : pyattr) : bool :=
  is_callable func && bool_decide (is_Some (fctype func))
  && (n_args func =? 1)%nat.

Definition name_to_param_init (feature_calculators : registry)
  : fc_parameters :=
  fold_left
    (λ name_to_param '(name, func),
       if parameterless func then <[name := None]> name_to_param
       else name_to_param)
    (map_to_list feature_calculators) ∅.

(** [ComprehensiveFCParameters()]. *)
Definition ComprehensiveFCParameters (feature_calculators : registry)
  : fc_parameters :=
  dict_update (name_to_param_init feature_calculators) overlay.

(** The loop shared by the four subclasses: [del self[fname]] for every
    module attribute that is a key of [self] and that [drop] selects. *)
Definition drop_loop (drop : pyattr → bool)
    (feature_calculators : registry) (self : fc_parameters)
  : fc_parameters :=
  fold_left
    (λ self '(fname, f),
       if bool_decide (is_Some (self !! fname)) && drop f
       then delete fname self else self)
    (map_to_list feature_calculators) self.

(** [not hasattr(f, "minimal") or not getattr(f, "minimal")]. *)
Definition drop_minimal (f : pyattr) : bool :=
  match minimal f with
  | None => true
  | Some v => negb (py_truthy v)
  end.

Definition MinimalFCParameters (feature_calculators : registry)
  : fc_parameters :=
  drop_loop drop_minimal feature_calculators
    (ComprehensiveFCParameters feature_calculators).

(** [hasattr(f, "high_comp_cost")]. *)
Definition drop_efficient (f : pyattr) : bool :=
  bool_decide (is_Some (high_comp_cost f)).

Definition EfficientFCParameters (feature_calculators : registry)
  : fc_parameters :=
  drop_loop drop_efficient feature_calculators
    (ComprehensiveFCParameters feature_calculators).

(** [getattr(f, "input", None) != "pd.Series"]. *)
Definition drop_index_based (f : pyattr) : bool :=
  negb (py_eq (getattr_default (input f) PyNone) (PyStr "pd.Series")).

Definition IndexBasedFCParameters (feature_calculators : registry)
  : fc_parameters :=
  drop_loop drop_index_based feature_calculators
    (ComprehensiveFCParameters feature_calculators).

(** [getattr(f, "index_type", False) != pd.DatetimeIndex]. *)
Definition drop_time_based (f : pyattr) : bool :=
  negb (py_eq (getattr_default (index_type f) (PyBool false))
          pd_DatetimeIndex).

Definition TimeBasedFCParameters (feature_calculators : registry)
  : fc_parameters :=
  drop_loop drop_time_based feature_calculators
    (ComprehensiveFCParameters feature_calculators).

End FC.

(** ** [from_columns] *)

Module Columns.

Section from_columns.

(** The module [feature_calculators] and the helper
    [tsfresh.utilities.string_manipulation.get_config_from_string] are
    imported by the file; both are parameters here.  The helper is handed
    the whole list [parts]; it returns [None] or a parameter dict, or
    raises. *)
Variable feature_calculators : registry.
Variable get_config_from_string : list string → pyresult (option config).

(** [if config:] is taken for a dict that is not empty. *)
Definition config_truthy (config : option (gmap string pyval)) : bool :=
  match config with
  | Some d => negb (dict_is_empty d)
  | None => false
  end.

(** [kind_to_fc_parameters[kind][feature_name]], when both keys are
    there. *)
Definition lookup2 (kind_to_fc_parameters : kind_to_fc)
    (kind feature_name : string) : option fc_value :=
  kind_to_fc_parameters !! kind ≫= λ fc, fc !! feature_name.

(** [kind_to_fc_parameters[kind][feature_name] = v]; the key [kind] is
    present when this runs (line 68). *)
Definition store2 (kind_to_fc_parameters : kind_to_fc)
    (kind feature_name : string) (v : fc_value) : kind_to_fc :=
  <[kind := <[feature_name := v]> (default ∅ (kind_to_fc_parameters !! kind))]>
    kind_to_fc_parameters.

(** Lines 74 to 80, on the value stored for the pair: the value that is
    stored next.  When the key is present the source calls [append] on
    whatever is stored, and [None] has no [append]. *)
Definition next_value (stored : option fc_value)
    (config : option (gmap string pyval)) : pyresult fc_value :=
  match config with
  | Some d =>
      if negb (dict_is_empty d) then
        match stored with
        | Some (Some l) => Ok (Some (l ++ [d]))
        | Some None =>
            Err (AttributeError
                   "'NoneType' object has no attribute 'append'")
        | None => Ok (Some [d])
        end
      else Ok None
  | None => Ok None
  end.

Definition record_config (kind_to_fc_parameters : kind_to_fc)
    (kind feature_name : string) (config : option (gmap string pyval))
  : pyresult kind_to_fc :=
  v ← next_value (lookup2 kind_to_fc_parameters kind feature_name) config;
  Ok (store2 kind_to_fc_parameters kind feature_name v).

(** The list stored for a pair, if a list is stored. *)
Definition stored_list (stored : option fc_value) : list config :=
  match stored with
  | Some (Some l) => l
  | _ => []
  end.

(** The dicts among decoded configs. *)
Definition dicts (configs : list (option (gmap string pyval)))
  : list config :=
  omap id configs.

(** The values one pair goes through as its configs arrive. *)
Fixpoint replay (stored : option fc_value)
    (configs : list (option (gmap string pyval)))
  : pyresult (option fc_value) :=
  match configs with
  | [] => Ok stored
  | config :: configs =>
      v ← next_value stored config; replay (Some v) configs
  end.

(** The body of the loop, lines 51 to 80, for one [col]. *)
Definition from_columns_step (columns_to_ignore : list pyobj)
    (kind_to_fc_parameters : kind_to_fc) (col : pyobj)
  : pyresult kind_to_fc :=
  if py_in col columns_to_ignore then Ok kind_to_fc_parameters
  else
    match col with
    | PyStr s =>
        let parts := Str.split s in
        match parts with
        | [_] =>
            Err (ValueError
                   ("Splitting of columnname " +:+ s
                    +:+ " resulted in only one part."))
        | [] => Err (IndexError "list index out of range")
        | kind :: feature_name :: _ =>
            let kind_to_fc_parameters :=
              if bool_decide (is_Some (kind_to_fc_parameters !! kind))
              then kind_to_fc_parameters
              else <[kind := ∅]> kind_to_fc_parameters in
            if negb (hasattr_module feature_calculators feature_name) then
              Err (ValueError ("Unknown feature name " +:+ feature_name))
            else
              config ← get_config_from_string parts;
              record_config kind_to_fc_parameters kind feature_name config
        end
    | _ =>
        Err (TypeError
               ("Column name " +:+ py_str col
                +:+ " should be a string or unicode"))
    end.

(** The [for] loop: the first exception ends it. *)
Fixpoint from_columns_loop (columns_to_ignore : list pyobj)
    (columns : list pyobj) (kind_to_fc_parameters : kind_to_fc)
  : pyresult kind_to_fc :=
  match columns with
  | [] => Ok kind_to_fc_parameters
  | col :: columns =>
      kind_to_fc_parameters ←
        from_columns_step columns_to_ignore kind_to_fc_parameters col;
      from_columns_loop columns_to_ignore columns kind_to_fc_parameters
  end.

(** [from_columns(columns, columns_to_ignore=None)]. *)
Definition from_columns (columns : list pyobj)
    (columns_to_ignore : option (list pyobj)) : pyresult kind_to_fc :=
  let columns_to_ignore := default [] columns_to_ignore in
  from_columns_loop columns_to_ignore columns ∅.

(** *** Reading one column on its own *)

(** What the loop body reads off a column it does not skip: the fields
    [kind] and [feature_name] and the decoded config. *)
Definition column_view (columns_to_ignore : list pyobj) (col : pyobj)
  : option (string * string * option config) :=
  if py_in col columns_to_ignore then None
  else
    match col with
    | PyStr s =>
        match Str.split s with
        | kind :: feature_name :: _ =>
            match get_config_from_string (Str.split s) with
            | Ok config => Some (kind, feature_name, config)
            | Err _ => None
            end
        | _ => None
        end
    | _ => None
    end.

(** The decoded configs of the columns that name the pair
    [(kind, feature_name)], in column order. *)
Definition configs_of (columns_to_ignore : list pyobj)
    (kind feature_name : string) (columns : list pyobj)
  : list (option config) :=
  omap (λ col,
          match column_view columns_to_ignore col with
          | Some (k, f, config) =>
              if bool_decide (k = kind ∧ f = feature_name)
              then Some config else None
          | None => None
          end) columns.

(** The error of the three documented kinds that a column raises when the
    loop body reaches it, if any. *)
Definition taxonomy_error (columns_to_ignore : list pyobj) (col : pyobj)
  : option pyexn :=
  if py_in col columns_to_ignore then None
  else
    match col with
    | PyStr s =>
        match Str.split s with
        | [_] =>
            Some (ValueError
                    ("Splitting of columnname " +:+ s
                     +:+ " resulted in only one part."))
        | _ :: feature_name :: _ =>
            if hasattr_module feature_calculators feature_name then None
            else Some (ValueError ("Unknown feature name " +:+ feature_name))
        | [] => None
        end
    | _ =>
        Some (TypeError
                ("Column name " +:+ py_str col
                 +:+ " should be a string or unicode"))
    end.

End from_columns.

End Columns.

(** ** The naming convention *)

Module Naming.

(** Modelled from the spec: the writer of column names lives in the
    extraction code, outside this file.  "each feature column name is
    composed of fields joined by a double-underscore delimiter:
    <kind>__<calculator_name>[__<param_token>]*". *)
Definition column_name (kind name : string) (tokens : list string)
  : string :=
  Str.join (kind :: name :: tokens).

(** Modelled from the spec: the column names written for one calculator
    of a settings object under one kind: one name when its value is
    [None], one name per parameter dict otherwise.  [param_tokens] writes
    a parameter dict as its [param_value] tokens. *)
Definition item_columns (param_tokens : config → list string)
    (kind : string) (item : string * fc_value) : list pyobj :=
  match item.2 with
  | None => [PyStr (column_name kind item.1 [])]
  | Some params =>
      (λ p, PyStr (column_name kind item.1 (param_tokens p))) <$> params
  end.

(** Modelled from the spec: the column names that a settings object stands
    for, its calculators taken in the order [items]. *)
Definition settings_columns (param_tokens : config → list string)
    (kind : string) (items : list (string * fc_value)) : list pyobj :=
  items ≫= item_columns param_tokens kind.

(** What reading a column name back relies on, for one parameter dict of
    the calculator [name]: the dict is not empty, its fields are readable,
    and the codec decodes them to the dict. *)
Definition param_round_trips
    (get_config_from_string : list string → pyresult (option config))
    (param_tokens : config → list string) (kind name : string)
    (p : gmap string pyval) : Prop :=
  dict_is_empty p = false
  ∧ Str.readable (kind :: name :: param_tokens p) = true
  ∧ get_config_from_string (kind :: name :: param_tokens p) = Ok (Some p).

(** The same for one entry of a settings object: the name is an attribute
    of the module; a [None] entry has readable fields that the codec
    decodes to a falsy config; a list entry is not empty and each of its
    dicts reads back. *)
Definition item_round_trips (feature_calculators : registry)
    (get_config_from_string : list string → pyresult (option config))
    (param_tokens : config → list string) (kind : string)
    (item : string * fc_value) : Prop :=
  is_Some (feature_calculators !! item.1)
  ∧ match item.2 with
    | None =>
        Str.readable [kind; item.1] = true
        ∧ ∃ c, get_config_from_string [kind; item.1] = Ok c
               ∧ Columns.config_truthy c = false
    | Some params =>
        params ≠ []
        ∧ Forall (param_round_trips get_config_from_string param_tokens
                    kind item.1) params
    end.

End Naming.

(** ** A small instance *)

Module Demo.

(** [s.rsplit("_", 1)]: the text before and after the last underscore. *)
Fixpoint rsplit_us (s : string) : option (string * string) :=
  match s with
  | "" => None
  | String c rest =>
      match rsplit_us rest with
      | Some (name, value) => Some (String c name, value)
      | None => if Ascii.eqb c "_" then Some ("", rest) else None
      end
  end.

Definition digit (c : ascii) : option Z :=
  let n := Z.of_N (N_of_ascii c) in
  if ((48 <=? n) && (n <=? 57))%Z then Some (n - 48)%Z else None.

(** A run of decimal digits, most significant first. *)
Fixpoint digits (s : string) (acc : Z) : option Z :=
  match s with
  | "" => Some acc
  | String c rest => d ← digit c; digits rest (10 * acc + d)%Z
  end.

Definition natural (s : string) : option Z :=
  match s with
  | "" => None
  | _ => digits s 0%Z
  end.

(** The text before and after the first dot. *)
Fixpoint cut_dot (s : string) : option (string * string) :=
  match s with
  | "" => None
  | String c rest =>
      if Ascii.eqb c "." then Some ("", rest)
      else '(a, b) ← cut_dot rest; Some (String c a, b)
  end.

(** Unsigned literals: an integer, or a short decimal [a.b], which is the
    correctly rounded quotient of two integers. *)
Definition unsigned_literal (s : string) : option pyval :=
  match cut_dot s with
  | Some (a, b) =>
      n ← natural (a +:+ b);
      _ ← natural a; _ ← natural b;
      Some (VFloat (float_of_Z n / float_of_Z (10 ^ Z.of_nat (String.length b))))
  | None => VInt <$> natural s
  end.

Definition literal (s : string) : option pyval :=
  match s with
  | "True" => Some (VBool true)
  | "False" => Some (VBool false)
  | String "-" rest =>
      match unsigned_literal rest with
      | Some (VInt z) => Some (VInt (- z))
      | Some (VFloat x) => Some (VFloat (- x))
      | _ => None
      end
  | _ => unsigned_literal s
  end.

Definition token (s : string) : pyresult (string * pyval) :=
  match rsplit_us s with
  | Some (name, text) =>
      match literal text with
      | Some v => Ok (name, v)
      | None => Err (ValueError ("malformed node or string: " +:+ text))
      end
  | None => Err (IndexError "list index out of range")
  end.

Fixpoint tokens (l : list string) : pyresult (list (string * pyval)) :=
  match l with
  | [] => Ok []
  | s :: l => kv ← token s; kvs ← tokens l; Ok (kv :: kvs)
  end.

(** Modelled from the spec: the Config String Codec
    [get_config_from_string], defined in
    [tsfresh/utilities/string_manipulation.py] and not in this file.
    "given the split name fields beyond kind/calculator, returns a mapping
    from parameter name to typed value (applying string→number/bool
    coercion as needed), or a falsy result if no parameters are encoded";
    it "parses one parameter token (name_value) into a typed (name, value)
    pair".  Integers, booleans and short decimals (fewer digits than a
    binary64 holds exactly) are the values read here; [nan] and [inf]
    tokens and longer decimals are outside this instance. *)
Definition get_config_from_string (parts : list string)
  : pyresult (option config) :=
  match drop 2 parts with
  | [] => Ok None
  | relevant_parts =>
      kvs ← tokens relevant_parts; Ok (Some (dict_literal kvs))
  end.

(** Integers written in decimal; the other values are not written by
    this instance. *)
Definition value_text (v : pyval) : string :=
  match v with
  | VInt z => pretty z
  | VBool true => "True"
  | VBool false => "False"
  | _ => "?"
  end.

(** Modelled from the spec: the [param_value] tokens of a parameter dict,
    one per parameter. *)
Definition param_tokens (d : config) : list string :=
  (λ kv, kv.1 +:+ "_" +:+ value_text kv.2) <$> map_to_list d.

Definition function (args : nat) (kind : string) : pyattr :=
  {| is_callable := true; n_args := args; fctype := Some (PyStr kind);
     minimal := None; high_comp_cost := None; input := None;
     index_type := None |}.

Definition plain_attribute : pyattr :=
  {| is_callable := false; n_args := 0; fctype := None;
     minimal := None; high_comp_cost := None; input := None;
     index_type := None |}.

(** A module in the shape of [feature_calculators]: decorated calculators,
    an undecorated helper, an imported module and the module's own
    [__name__]. *)
Definition feature_calculators : registry :=
  dict_literal
    [ ("__name__", plain_attribute);
      ("np", plain_attribute);
      ("_roll",
        {| is_callable := true; n_args := 2; fctype := None;
           minimal := None; high_comp_cost := None; input := None;
           index_type := None |});
      ("mean",
        {| is_callable := true; n_args := 1; fctype := Some (PyStr "simple");
           minimal := Some (PyBool true); high_comp_cost := None;
           input := None; index_type := None |});
      ("median", function 1 "simple");
      ("sample_entropy",
        {| is_callable := true; n_args := 1; fctype := Some (PyStr "simple");
           minimal := None; high_comp_cost := Some (PyBool true);
           input := None; index_type := None |});
      ("quantile", function 2 "simple");
      ("number_peaks", function 2 "simple");
      ("approximate_entropy",
        {| is_callable := true; n_args := 3; fctype := Some (PyStr "simple");
           minimal := None; high_comp_cost := Some (PyBool true);
           input := None; index_type := None |});
      ("linear_trend_timewise",
        {| is_callable := true; n_args := 2;
           fctype := Some (PyStr "combiner");
           minimal := None; high_comp_cost := None;
           input := Some (PyStr "pd.Series");
           index_type := Some pd_DatetimeIndex |}) ].

(** A settings object over this module, and its items. *)
Definition settings_items : list (string * fc_value) :=
  [ ("mean", None);
    ("number_peaks", Some ((λ n, {["n" := VInt n]}) <$> [1; 3; 5]%Z)) ].

Definition settings : fc_parameters := dict_literal settings_items.

(** [from_columns] of this instance. *)
Definition from_columns :=
  Columns.from_columns feature_calculators get_config_from_string.

End Demo.

(** ** Shapes *)

Module Shape.

(** A value that a settings object can hand to the extraction: [None], or
    a list that is not empty of parameter dicts that are not empty. *)
Definition fc_value_ok (v : fc_value) : bool :=
  match v with
  | None => true
  | Some params =>
      negb (bool_decide (params = []))
      && forallb (λ d, negb (dict_is_empty d)) params
  end.

(** A column that the loop body gets through up to line 73: skipped, or a
    string of two fields or more whose second field is an attribute of the
    module and whose fields the codec decodes. *)
Definition column_ok (feature_calculators : registry)
    (get_config_from_string : list string → pyresult (option config))
    (columns_to_ignore : list pyobj) (col : pyobj) : Prop :=
  py_in col columns_to_ignore = true
  ∨ ∃ kind feature_name config,
      Columns.column_view get_config_from_string columns_to_ignore col
      = Some (kind, feature_name, config)
      ∧ hasattr_module feature_calculators feature_name = true.

End Shape.

(** * Properties *)

Example split_plain : Str.split "a" = ["a"].
Proof. reflexivity. Qed.

Example split_two : Str.split "kind__mean" = ["kind"; "mean"].
Proof. reflexivity. Qed.

Example split_three_underscores : Str.split "a___b" = ["a"; "_b"].
Proof. reflexivity. Qed.

Example split_dunder : Str.split "k____name__" = ["k"; ""; "name"; ""].
Proof. reflexivity. Qed.

Example split_params :
  Str.split "k__quantile__q_0.1" = ["k"; "quantile"; "q_0.1"].
Proof. reflexivity. Qed.

Example demo_quantile :
  Demo.from_columns [PyStr "k__quantile__q_0.1"; PyStr "k__quantile__q_0.2"]
    None
  = Ok {["k" := {["quantile" :=
          Some [{["q" := VFloat 0.1]}; {["q" := VFloat 0.2]}] ]} ]}.
Proof. vm_compute. reflexivity. Qed.

Example demo_ignore :
  Demo.from_columns [PyStr "id"; PyStr "kind__mean"] (Some [PyStr "id"])
  = Ok {["kind" := {["mean" := None]}]}.
Proof. vm_compute. reflexivity. Qed.

Example demo_attr_error :
  Demo.from_columns [PyStr "k__quantile"; PyStr "k__quantile__q_0.1"] None
  = Err (AttributeError "'NoneType' object has no attribute 'append'").
Proof. vm_compute. reflexivity. Qed.

Example demo_type_error :
  Demo.from_columns [PyInt 42] None
  = Err (TypeError "Column name 42 should be a string or unicode").
Proof. vm_compute. reflexivity. Qed.

(** ** Dictionaries *)

Section dict_facts.
Context {V : Type}.
Implicit Types (d : gmap string V) (items : list (string * V)).

Lemma dict_is_empty_spec d : dict_is_empty d = true ↔ d = ∅.
Proof.
  unfold dict_is_empty. rewrite <- map_to_list_empty_iff.
  destruct (map_to_list d); split; congruence.
Qed.

Lemma dict_update_snoc d items k v :
  dict_update d (items ++ [(k, v)]) = <[k := v]> (dict_update d items).
Proof. unfold dict_update. by rewrite fold_left_app. Qed.

(** [update] reads as a left-biased union with the literal. *)
Lemma dict_update_lookup d items k :
  dict_update d items !! k
  = match dict_literal items !! k with
    | Some v => Some v
    | None => d !! k
    end.
Proof.
  induction items as [|[k' v] items IH] using rev_ind.
  - unfold dict_literal, dict_update. cbn. by rewrite lookup_empty.
  - unfold dict_literal in *. rewrite !dict_update_snoc.
    destruct (decide (k' = k)) as [->|Hne].
    + by rewrite !lookup_insert_eq.
    + by rewrite !lookup_insert_ne.
Qed.

Lemma dict_literal_lookup_notin items k :
  k ∉ items.*1 → dict_literal items !! k = None.
Proof.
  induction items as [|[k' v] items IH] using rev_ind; intros Hk.
  - apply lookup_empty.
  - unfold dict_literal. rewrite dict_update_snoc.
    rewrite fmap_app, elem_of_app in Hk. cbn in Hk.
    rewrite lookup_insert_ne; [apply IH; tauto|].
    intros ->. apply Hk. right. by left.
Qed.

Lemma dict_literal_lookup_in items k v :
  NoDup items.*1 → (k, v) ∈ items → dict_literal items !! k = Some v.
Proof.
  induction items as [|[k' v'] items IH] using rev_ind; intros Hnd Hin.
  - by apply elem_of_nil in Hin.
  - unfold dict_literal. rewrite dict_update_snoc.
    rewrite fmap_app in Hnd. apply NoDup_app in Hnd as (Hnd & Hfresh & _).
    apply elem_of_app in Hin as [Hin|Hin].
    + rewrite lookup_insert_ne; [by apply IH|].
      intros ->. apply (Hfresh k); [|by left].
      apply list_elem_of_fmap. by exists (k, v).
    + apply list_elem_of_singleton in Hin. injection Hin as -> ->.
      by rewrite lookup_insert_eq.
Qed.

End dict_facts.

(** ** Settings objects *)

Section settings_facts.
Implicit Types (feature_calculators : registry) (self : fc_parameters).

(** A key that holds [None] keeps it through lines 109 to 111. *)
Lemma name_to_param_keeps_none (items : list (string * pyattr)) self name :
  self !! name = Some None →
  fold_left
    (λ name_to_param '(name, func),
       if FC.parameterless func then <[name := None]> name_to_param
       else name_to_param) items self !! name = Some None.
Proof.
  revert self. induction items as [|[k func] items IH]; intros self H; [done|].
  cbn. apply IH. destruct (FC.parameterless func); [|done].
  destruct (decide (k = name)) as [->|Hne].
  - by rewrite lookup_insert_eq.
  - by rewrite lookup_insert_ne.
Qed.

Lemma name_to_param_init_lookup feature_calculators name func :
  feature_calculators !! name = Some func →
  FC.parameterless func = true →
  FC.name_to_param_init feature_calculators !! name = Some None.
Proof.
  intros Hreg Hpar. unfold FC.name_to_param_init.
  apply elem_of_map_to_list in Hreg.
  apply list_elem_of_split in Hreg as (l1 & l2 & ->).
  rewrite fold_left_app. cbn. rewrite Hpar.
  apply name_to_param_keeps_none. by rewrite lookup_insert_eq.
Qed.

(** What the deleting loop of a subclass leaves at one key. *)
Lemma drop_fold_lookup (drop : pyattr → bool)
    (items : list (string * pyattr)) self name :
  NoDup items.*1 →
  fold_left
    (λ self '(fname, f),
       if bool_decide (is_Some (self !! fname)) && drop f
       then delete fname self else self) items self !! name
  = match (list_to_map items : registry) !! name with
    | Some f => if drop f then None else self !! name
    | None => self !! name
    end.
Proof.
  revert self. induction items as [|[k f] items IH]; intros self Hnd; [done|].
  cbn in Hnd. apply NoDup_cons in Hnd as [Hk Hnd]. cbn [fold_left].
  rewrite IH by done. cbn [list_to_map foldr]. cbn.
  destruct (decide (k = name)) as [->|Hne].
  - rewrite lookup_insert_eq.
    rewrite (not_elem_of_list_to_map_1 _ _ Hk).
    destruct (drop f); [|by rewrite andb_false_r].
    rewrite andb_true_r. case_bool_decide as Hs.
    + apply lookup_delete_eq.
    + by apply eq_None_not_Some.
  - rewrite lookup_insert_ne by done.
    assert ((if bool_decide (is_Some (self !! k)) && drop f
             then delete k self else self) !! name = self !! name) as ->.
    { destruct (_ && _); [by rewrite lookup_delete_ne|done]. }
    done.
Qed.

Lemma drop_loop_lookup drop feature_calculators self name :
  FC.drop_loop drop feature_calculators self !! name
  = match feature_calculators !! name with
    | Some f => if drop f then None else self !! name
    | None => self !! name
    end.
Proof.
  unfold FC.drop_loop.
  rewrite drop_fold_lookup by apply NoDup_fst_map_to_list.
  by rewrite list_to_map_to_list.
Qed.

Lemma drop_loop_subseteq drop feature_calculators self :
  FC.drop_loop drop feature_calculators self ⊆ self.
Proof.
  apply map_subseteq_spec. intros name v. rewrite drop_loop_lookup.
  destruct (feature_calculators !! name) as [f|]; [|done].
  by destruct (drop f).
Qed.

(** A key that is not an attribute of the module is never deleted. *)
Lemma drop_loop_unregistered drop feature_calculators self name :
  feature_calculators !! name = None →
  FC.drop_loop drop feature_calculators self !! name = self !! name.
Proof. intros Hreg. by rewrite drop_loop_lookup, Hreg. Qed.

Lemma overlay_names_distinct : NoDup FC.overlay.*1.
Proof. apply (bool_decide_unpack _). by vm_compute. Qed.

End settings_facts.

(** *** The four variants against the comprehensive set *)

(** C5.  Subset property: each key of the minimal, efficient, index-based
    and time-based settings is a key of the comprehensive settings (the
    variants are in fact sub-maps: the values agree too). *)
Theorem variants_subset_comprehensive (feature_calculators : registry) :
  let comprehensive := FC.ComprehensiveFCParameters feature_calculators in
  (FC.MinimalFCParameters feature_calculators ⊆ comprehensive
   ∧ dom (FC.MinimalFCParameters feature_calculators) ⊆ dom comprehensive)
  ∧ (FC.EfficientFCParameters feature_calculators ⊆ comprehensive
     ∧ dom (FC.EfficientFCParameters feature_calculators) ⊆ dom comprehensive)
  ∧ (FC.IndexBasedFCParameters feature_calculators ⊆ comprehensive
     ∧ dom (FC.IndexBasedFCParameters feature_calculators)
       ⊆ dom comprehensive)
  ∧ (FC.TimeBasedFCParameters feature_calculators ⊆ comprehensive
     ∧ dom (FC.TimeBasedFCParameters feature_calculators)
       ⊆ dom comprehensive).
Proof.
  cbv zeta.
  repeat split; try apply subseteq_dom; apply drop_loop_subseteq.
Qed.

(** C6.  Minimal-variant filter: for a calculator [name] of the module
    with metadata [f], the minimal settings keep the comprehensive entry
    of [name] when the attribute [minimal] of [f] is set to a true value,
    and have no key [name] when that attribute is absent or false. *)
Theorem minimal_keeps_flagged_only
    (feature_calculators : registry) (name : string) (f : pyattr) :
  feature_calculators !! name = Some f →
  FC.MinimalFCParameters feature_calculators !! name
  = if flag_true (minimal f)
    then FC.ComprehensiveFCParameters feature_calculators !! name
    else None.
Proof.
  intros Hreg. unfold FC.MinimalFCParameters.
  rewrite drop_loop_lookup, Hreg. unfold FC.drop_minimal, flag_true.
  destruct (minimal f) as [v|]; [|done]. by destruct (py_truthy v).
Qed.

Lemma minimal_keeps_flagged_only_witness :
  (Demo.feature_calculators !! "mean"
   = Some {| is_callable := true; n_args := 1;
             fctype := Some (PyStr "simple");
             minimal := Some (PyBool true); high_comp_cost := None;
             input := None; index_type := None |})
  ∧ FC.MinimalFCParameters Demo.feature_calculators !! "mean" = Some None
  ∧ FC.MinimalFCParameters Demo.feature_calculators !! "median" = None.
Proof.
  split; [by vm_compute|]. split.
  - rewrite (minimal_keeps_flagged_only Demo.feature_calculators "mean" _
               ltac:(by vm_compute)).
    by vm_compute.
  - by rewrite (minimal_keeps_flagged_only Demo.feature_calculators "median"
                  (Demo.function 1 "simple") ltac:(by vm_compute)).
Defined.

(** C7.  Efficient-variant filter: the efficient settings are the
    comprehensive settings without the calculators of the module that
    carry the attribute [high_comp_cost]; nothing else about a calculator
    is looked at, and every other entry is the comprehensive one. *)
Theorem efficient_drops_high_comp_cost
    (feature_calculators : registry) (name : string) :
  FC.EfficientFCParameters feature_calculators !! name
  = match feature_calculators !! name with
    | Some f =>
        if bool_decide (is_Some (high_comp_cost f)) then None
        else FC.ComprehensiveFCParameters feature_calculators !! name
    | None => FC.ComprehensiveFCParameters feature_calculators !! name
    end.
Proof. unfold FC.EfficientFCParameters. by rewrite drop_loop_lookup. Qed.

(** C8.  Comprehensive-set construction: a calculator of the module that
    is callable, carries a non-empty [fctype] and takes exactly one
    positional argument is a key, with value [None] unless the overlay
    table names it; and every entry of the overlay table is in the
    result with the table's value. *)
Theorem comprehensive_construction (feature_calculators : registry) :
  (∀ name func tag,
     feature_calculators !! name = Some func →
     is_callable func = true →
     fctype func = Some tag → py_truthy tag = true →
     n_args func = 1%nat →
     FC.ComprehensiveFCParameters feature_calculators !! name
     = Some (default None (dict_literal FC.overlay !! name)))
  ∧ (∀ name v,
       (name, v) ∈ FC.overlay →
       FC.ComprehensiveFCParameters feature_calculators !! name = Some v).
Proof.
  unfold FC.ComprehensiveFCParameters. split.
  - intros name func tag Hreg Hcall Htag _ Hargs.
    rewrite dict_update_lookup.
    destruct (dict_literal FC.overlay !! name) as [v|]; [done|].
    apply (name_to_param_init_lookup _ _ func Hreg).
    unfold FC.parameterless. rewrite Hcall, Htag, Hargs. done.
  - intros name v Hin. rewrite dict_update_lookup.
    by rewrite (dict_literal_lookup_in _ _ _ overlay_names_distinct Hin).
Qed.

Lemma comprehensive_construction_witness :
  FC.ComprehensiveFCParameters Demo.feature_calculators !! "mean"
  = Some None
  ∧ FC.ComprehensiveFCParameters Demo.feature_calculators !! "range_count"
    = Some (Some [dict_literal [("min", VInt (-1)); ("max", VInt 1)]]).
Proof.
  split.
  - rewrite (proj1 (comprehensive_construction Demo.feature_calculators)
               "mean" _ (PyStr "simple") ltac:(by vm_compute)
               eq_refl eq_refl eq_refl eq_refl).
    by vm_compute.
  - apply (proj2 (comprehensive_construction Demo.feature_calculators)).
    by apply (list_elem_of_lookup_2 _ 16).
Defined.

(** ** Splitting and joining *)

Section split_facts.
Import Str.

Lemma split_nonempty s : split s ≠ [].
Proof.
  induction s as [|c rest IH]; [done|]. cbn.
  destruct rest as [|c' rest']; [done|].
  destruct (is_us c && is_us c'); [done|].
  by destruct (split (String c' rest')).
Qed.

(** A text without the delimiter is one field. *)
Lemma split_single s : no_delim s = true → split s = [s].
Proof.
  induction s as [|c rest IH]; [done|]. intros H.
  destruct rest as [|c' rest']; [done|].
  cbn in H. apply andb_true_iff in H as [Hcc Hrest].
  change (split (String c (String c' rest')))
    with (if is_us c && is_us c' then "" :: split rest'
          else push c (split (String c' rest'))).
  apply negb_true_iff in Hcc. rewrite Hcc, (IH Hrest). done.
Qed.

Lemma inner_field_tail c c' rest :
  inner_field (String c (String c' rest)) = true →
  (is_us c && is_us c') = false ∧ inner_field (String c' rest) = true.
Proof.
  unfold inner_field. intros H. apply andb_true_iff in H as [Hd Ht].
  cbn in Hd. apply andb_true_iff in Hd as [Hcc Hd].
  apply negb_true_iff in Hcc. split; [done|].
  apply andb_true_iff. split; [done|]. exact Ht.
Qed.

(** A field followed by the delimiter is cut off at the delimiter. *)
Lemma split_app field rest :
  inner_field field = true →
  split (field +:+ "__" +:+ rest) = field :: split rest.
Proof.
  induction field as [|c field IH]; intros H; [done|].
  destruct field as [|c' field'].
  - unfold inner_field in H. cbn in H. apply negb_true_iff in H.
    change (String c "" +:+ "__" +:+ rest)
      with (String c (String "_" (String "_" rest))).
    change (split (String c (String "_" (String "_" rest))))
      with (if is_us c && is_us "_" then "" :: split (String "_" rest)
            else push c (split ("" +:+ "__" +:+ rest))).
    rewrite H. cbn [andb]. by rewrite (IH eq_refl).
  - apply inner_field_tail in H as [Hcc H].
    change (split (String c (String c' field') +:+ "__" +:+ rest))
      with (if is_us c && is_us c'
            then "" :: split (field' +:+ "__" +:+ rest)
            else push c (split (String c' field' +:+ "__" +:+ rest))).
    rewrite Hcc, (IH H). done.
Qed.

(** Readable fields come back from their join. *)
Lemma split_join fields : readable fields = true → split (join fields) = fields.
Proof.
  induction fields as [|f rest IH]; [done|]. intros H.
  destruct rest as [|g rest].
  - by apply split_single.
  - change (readable (f :: g :: rest))
      with (inner_field f && readable (g :: rest)) in H.
    apply andb_true_iff in H as [Hf Hrest].
    change (join (f :: g :: rest)) with (f +:+ "__" +:+ join (g :: rest)).
    by rewrite split_app, IH.
Qed.

End split_facts.

(** ** The loop of [from_columns] *)

Section columns_facts.
Import Columns.
Context (feature_calculators : registry).
Context (get_config_from_string : list string → pyresult (option config)).

Abbreviation step := (from_columns_step feature_calculators get_config_from_string).
Abbreviation loop := (from_columns_loop feature_calculators get_config_from_string).
Abbreviation view := (column_view get_config_from_string).
Implicit Types (st : kind_to_fc) (col : pyobj) (ign cols : list pyobj).
Implicit Types (k f : string) (c : option (gmap string pyval)).

Lemma lookup2_store2 st k f v k' f' :
  lookup2 (store2 st k f v) k' f'
  = if bool_decide (k = k' ∧ f = f') then Some v else lookup2 st k' f'.
Proof.
  unfold lookup2, store2. destruct (decide (k = k')) as [<-|Hk].
  - rewrite lookup_insert_eq. cbn. destruct (decide (f = f')) as [<-|Hf].
    + rewrite lookup_insert_eq. by rewrite bool_decide_eq_true_2.
    + rewrite lookup_insert_ne by done.
      rewrite bool_decide_eq_false_2 by tauto.
      by destruct (st !! k).
  - rewrite lookup_insert_ne by done.
    by rewrite bool_decide_eq_false_2 by tauto.
Qed.

(** Line 68 does not show in what lines 73 to 80 do. *)
Lemma record_config_ensure st k f c :
  record_config
    (if bool_decide (is_Some (st !! k)) then st else <[k := ∅]> st) k f c
  = record_config st k f c.
Proof.
  case_bool_decide as Hs; [done|]. apply eq_None_not_Some in Hs.
  unfold record_config, lookup2, store2.
  rewrite lookup_insert_eq, Hs. cbn. rewrite lookup_empty.
  destruct (next_value None c); cbn; [|done].
  by rewrite insert_insert_eq.
Qed.

Lemma record_config_inv st k f c st' :
  record_config st k f c = Ok st' →
  ∃ v, next_value (lookup2 st k f) c = Ok v ∧ st' = store2 st k f v.
Proof.
  unfold record_config. destruct (next_value _ c) as [v|e]; cbn; [|done].
  intros [= <-]. by exists v.
Qed.

Lemma view_inv ign col k f c :
  view ign col = Some (k, f, c) →
  py_in col ign = false
  ∧ ∃ s rest, col = PyStr s ∧ Str.split s = k :: f :: rest
              ∧ get_config_from_string (Str.split s) = Ok c.
Proof.
  unfold column_view. destruct (py_in col ign); [done|].
  destruct col as [| | |s|]; try done.
  destruct (Str.split s) as [|k0 [|f0 rest]] eqn:Hs; try done.
  destruct (get_config_from_string _) as [c0|] eqn:Hc; [|done].
  intros [= -> -> ->]. split; [done|]. exists s, rest. by rewrite Hs.
Qed.

(** The loop body on a column it reads. *)
Lemma step_of_view ign st col k f c :
  view ign col = Some (k, f, c) →
  step ign st col
  = if hasattr_module feature_calculators f then record_config st k f c
    else Err (ValueError ("Unknown feature name " +:+ f)).
Proof.
  intros (Hin & s & rest & -> & Hs & Hc)%view_inv.
  unfold from_columns_step. rewrite Hin, Hs.
  destruct (hasattr_module feature_calculators f); cbn; [|done].
  rewrite <- Hs, Hc. cbn. apply record_config_ensure.
Qed.

Lemma step_ignored ign st col : py_in col ign = true → step ign st col = Ok st.
Proof. unfold from_columns_step. by intros ->. Qed.

(** A step that returns either skipped the column or recorded its
    config. *)
Lemma step_ok_inv ign st col st' :
  step ign st col = Ok st' →
  (py_in col ign = true ∧ st' = st)
  ∨ ∃ k f c, view ign col = Some (k, f, c)
             ∧ hasattr_module feature_calculators f = true
             ∧ record_config st k f c = Ok st'.
Proof.
  destruct (py_in col ign) eqn:Hin.
  { rewrite step_ignored by done. intros [= <-]. by left. }
  intros Hstep. right. revert Hstep.
  unfold from_columns_step, column_view. rewrite Hin.
  destruct col as [| | |s|]; try done.
  destruct (Str.split s) as [|k [|f rest]] eqn:Hs; try done.
  destruct (hasattr_module feature_calculators f) eqn:Hf; cbn; [|done].
  destruct (get_config_from_string _) as [c|] eqn:Hc; cbn; [|done].
  rewrite record_config_ensure. intros Hrec. by exists k, f, c.
Qed.

Lemma loop_app ign cols1 cols2 st :
  loop ign (cols1 ++ cols2) st = loop ign cols1 st ≫= loop ign cols2.
Proof.
  revert st. induction cols1 as [|col cols1 IH]; intros st; [done|].
  cbn. destruct (step ign st col); cbn; [apply IH|done].
Qed.

Lemma configs_of_cons ign k f col cols :
  configs_of get_config_from_string ign k f (col :: cols)
  = match view ign col with
    | Some (k', f', c) =>
        if bool_decide (k' = k ∧ f' = f)
        then c :: configs_of get_config_from_string ign k f cols
        else configs_of get_config_from_string ign k f cols
    | None => configs_of get_config_from_string ign k f cols
    end.
Proof.
  unfold configs_of. cbn.
  destruct (view ign col) as [[[k' f'] c]|]; [|done].
  by case_bool_decide.
Qed.

Lemma configs_of_app ign k f cols1 cols2 :
  configs_of get_config_from_string ign k f (cols1 ++ cols2)
  = configs_of get_config_from_string ign k f cols1
    ++ configs_of get_config_from_string ign k f cols2.
Proof. unfold configs_of. apply omap_app. Qed.

(** The value the result holds for a pair is the replay of the configs of
    the columns that name the pair. *)
Lemma loop_replay ign cols st R k f :
  loop ign cols st = Ok R →
  replay (lookup2 st k f) (configs_of get_config_from_string ign k f cols)
  = Ok (lookup2 R k f).
Proof.
  revert st. induction cols as [|col cols IH]; intros st.
  { cbn. by intros [= ->]. }
  cbn [from_columns_loop]. destruct (step ign st col) as [st1|] eqn:Hstep;
    [|done].
  intros Hloop. cbn in Hloop. specialize (IH _ Hloop).
  rewrite configs_of_cons.
  apply step_ok_inv in Hstep as [[Hin ->]|(k' & f' & c & Hv & _ & Hrec)].
  { unfold column_view. by rewrite Hin. }
  rewrite Hv. apply record_config_inv in Hrec as (v & Hnext & ->).
  rewrite lookup2_store2 in IH. case_bool_decide as Hkf.
  - destruct Hkf as [-> ->]. cbn. rewrite Hnext. cbn. done.
  - done.
Qed.

End columns_facts.

(** ** One pair at a time *)

Section replay_facts.
Import Columns.
Implicit Types (stored : option fc_value) (c : option (gmap string pyval)).

Lemma next_value_truthy stored c :
  config_truthy c = true →
  ∃ d, c = Some d
       ∧ next_value (Some None) c
         = Err (AttributeError "'NoneType' object has no attribute 'append'")
       ∧ (stored ≠ Some None →
          next_value stored c = Ok (Some (stored_list stored ++ [d]))).
Proof.
  destruct c as [d|]; [|done]. cbn. intros Hd. exists d. rewrite Hd.
  repeat split. by destruct stored as [[l|]|].
Qed.

Lemma next_value_falsy stored c :
  config_truthy c = false → next_value stored c = Ok None.
Proof. destruct c as [d|]; [|done]. cbn. by intros ->. Qed.

(** Parameterized columns only: one list, in column order. *)
Lemma replay_truthy stored cs :
  Forall (λ c, config_truthy c = true) cs →
  stored ≠ Some None → cs ≠ [] →
  replay stored cs = Ok (Some (Some (stored_list stored ++ dicts cs))).
Proof.
  intros Hall. revert stored.
  induction Hall as [|c cs Hc Hall IH]; intros stored Hst Hne; [done|].
  destruct (next_value_truthy stored c Hc) as (d & -> & _ & Hnext).
  cbn [replay]. rewrite (Hnext Hst). cbn.
  destruct cs as [|c' cs']; [done|].
  rewrite IH by done. cbn [stored_list]. unfold dicts. cbn.
  by rewrite <- app_assoc.
Qed.

(** A list at the end means parameterized columns only. *)
Lemma replay_list_inv stored cs L :
  replay stored cs = Ok (Some (Some L)) → cs ≠ [] →
  Forall (λ c, config_truthy c = true) cs
  ∧ L = stored_list stored ++ dicts cs.
Proof.
  revert stored. induction cs as [|c cs IH]; intros stored Hrep Hne; [done|].
  clear Hne. cbn [replay] in Hrep.
  destruct (next_value stored c) as [v|] eqn:Hnext; [|done]. cbn in Hrep.
  assert (config_truthy c = true ∧ v = Some (stored_list stored ++ dicts [c]))
    as [Hc ->].
  { destruct (config_truthy c) eqn:Hc.
    - split; [done|].
      destruct (next_value_truthy stored c Hc) as (d & -> & Hnone & Hok).
      destruct stored as [[l|]|]; [|congruence|];
        (rewrite Hok in Hnext by done; by injection Hnext as <-).
    - rewrite next_value_falsy in Hnext by done. injection Hnext as <-.
      destruct cs as [|c' cs']; [done|].
      destruct (IH _ Hrep) as [Hall _]; [done|].
      apply Forall_cons in Hall as [Hc' _].
      destruct (next_value_truthy None c' Hc') as (d & -> & Hnone & _).
      cbn [replay] in Hrep. by rewrite Hnone in Hrep. }
  destruct cs as [|c' cs'].
  - injection Hrep as <-. split; [by constructor|done].
  - destruct (IH _ Hrep) as [Hall ->]; [done|]. split; [by constructor|].
    cbn [stored_list]. destruct c as [d|]; [|done]. unfold dicts. cbn.
    by rewrite <- app_assoc.
Qed.

End replay_facts.

(** ** Replacement *)

(** C3.  Replace-on-None: when the loop reaches a column of a pair that
    decodes to no parameters, the call goes on with [None] stored for the
    pair, whatever list the earlier columns had accumulated there, and
    every other pair as it was; [None] is what the result holds for the
    pair when no later column names it. *)
Theorem parameterless_column_replaces
    (feature_calculators : registry)
    (get_config_from_string : list string → pyresult (option config))
    (columns_to_ignore : option (list pyobj))
    (earlier : list pyobj) (col : pyobj)
    (st : kind_to_fc) (kind feature_name : string)
    (config : option (gmap string pyval)) :
  Columns.from_columns feature_calculators get_config_from_string
    earlier columns_to_ignore = Ok st →
  Columns.column_view get_config_from_string (default [] columns_to_ignore)
    col = Some (kind, feature_name, config) →
  hasattr_module feature_calculators feature_name = true →
  Columns.config_truthy config = false →
  ∃ R,
    Columns.from_columns feature_calculators get_config_from_string
      (earlier ++ [col]) columns_to_ignore = Ok R
    ∧ Columns.lookup2 R kind feature_name = Some None
    ∧ (∀ k f, ¬ (kind = k ∧ feature_name = f) →
         Columns.lookup2 R k f = Columns.lookup2 st k f)
    ∧ (∀ later R',
         Columns.from_columns feature_calculators get_config_from_string
           (earlier ++ col :: later) columns_to_ignore = Ok R' →
         Columns.configs_of get_config_from_string
           (default [] columns_to_ignore) kind feature_name later = [] →
         Columns.lookup2 R' kind feature_name = Some None).
Proof.
  unfold Columns.from_columns. intros Hpre Hview Hattr Hfalsy.
  set (ign := default [] columns_to_ignore) in *.
  assert (Columns.from_columns_step feature_calculators
            get_config_from_string ign st col
          = Ok (Columns.store2 st kind feature_name None)) as Hstep.
  { rewrite (step_of_view _ _ _ _ _ _ _ _ Hview), Hattr.
    unfold Columns.record_config.
    by rewrite next_value_falsy. }
  exists (Columns.store2 st kind feature_name None).
  split; [|split; [|split]].
  - rewrite loop_app, Hpre. cbn. by rewrite Hstep.
  - rewrite lookup2_store2. by rewrite bool_decide_eq_true_2.
  - intros k f Hne. rewrite lookup2_store2.
    by rewrite bool_decide_eq_false_2.
  - intros later R'. rewrite loop_app, Hpre. cbn. rewrite Hstep. cbn.
    intros Hlater Hnone.
    apply (loop_replay _ _ _ _ _ _ kind feature_name) in Hlater.
    rewrite Hnone, lookup2_store2 in Hlater.
    rewrite bool_decide_eq_true_2 in Hlater by done.
    by injection Hlater as <-.
Qed.

Lemma parameterless_column_replaces_witness :
  ∃ R,
    Demo.from_columns
      ([PyStr "k__quantile__q_0.1"; PyStr "k__quantile__q_0.2"]
       ++ [PyStr "k__quantile"]) None = Ok R
    ∧ Columns.lookup2 R "k" "quantile" = Some None.
Proof.
  destruct (parameterless_column_replaces Demo.feature_calculators
              Demo.get_config_from_string None
              [PyStr "k__quantile__q_0.1"; PyStr "k__quantile__q_0.2"]
              (PyStr "k__quantile")
              {["k" := {["quantile" :=
                  Some [{["q" := VFloat 0.1]}; {["q" := VFloat 0.2]}] ]} ]}
              "k" "quantile" None)
    as (R & HR & Hnone & _).
  - vm_compute. reflexivity.
  - vm_compute. reflexivity.
  - by vm_compute.
  - reflexivity.
  - by exists R.
Defined.

(** ** Errors *)

Section error_facts.
Import Columns.
Context (feature_calculators : registry).
Context (get_config_from_string : list string → pyresult (option config)).

(** The loop body raises the documented error of a column it reaches. *)
Lemma step_taxonomy_error ign st col e :
  taxonomy_error feature_calculators ign col = Some e →
  from_columns_step feature_calculators get_config_from_string ign st col
  = Err e.
Proof.
  unfold taxonomy_error, from_columns_step.
  destruct (py_in col ign); [done|].
  destruct col as [| | |s|]; try by intros [= <-].
  destruct (Str.split s) as [|k [|f rest]]; [done|by intros [= <-]|].
  destruct (hasattr_module feature_calculators f); [done|].
  by intros [= <-].
Qed.

Lemma loop_aborts ign cols st :
  Exists (λ col, is_Some (taxonomy_error feature_calculators ign col)) cols →
  ∃ e, from_columns_loop feature_calculators get_config_from_string
         ign cols st = Err e.
Proof.
  intros Hex. revert st.
  induction Hex as [col cols [e He]|col cols _ IH]; intros st; cbn.
  - rewrite (step_taxonomy_error _ _ _ _ He). by exists e.
  - destruct (from_columns_step _ _ ign st col) as [st'|e]; cbn.
    + apply IH.
    + by exists e.
Qed.

(** Line 76 on a pair that holds [None]: a parameterized column that
    comes after a parameterless column of the same pair ends the call. *)
Lemma append_on_none_raises ign earlier col later st k f c :
  from_columns_loop feature_calculators get_config_from_string ign
    earlier ∅ = Ok st →
  lookup2 st k f = Some None →
  column_view get_config_from_string ign col = Some (k, f, c) →
  hasattr_module feature_calculators f = true →
  config_truthy c = true →
  from_columns_loop feature_calculators get_config_from_string ign
    (earlier ++ col :: later) ∅
  = Err (AttributeError "'NoneType' object has no attribute 'append'").
Proof.
  intros Hpre Hnone Hview Hattr Hc. rewrite loop_app, Hpre. cbn.
  rewrite (step_of_view _ _ _ _ _ _ _ _ Hview), Hattr.
  unfold record_config. rewrite Hnone.
  destruct (next_value_truthy None c Hc) as (d & -> & -> & _). done.
Qed.

(** Skipped entries can be left out of the input. *)
Lemma loop_filter ign cols st :
  from_columns_loop feature_calculators get_config_from_string ign cols st
  = from_columns_loop feature_calculators get_config_from_string ign
      (filter (λ col, py_in col ign = false) cols) st.
Proof.
  revert st. induction cols as [|col cols IH]; intros st; [done|].
  rewrite filter_cons. destruct (py_in col ign) eqn:Hin.
  - rewrite decide_False by done. cbn. rewrite step_ignored by done. cbn.
    apply IH.
  - rewrite decide_True by done. cbn.
    destruct (from_columns_step _ _ ign st col); cbn; [apply IH|done].
Qed.

End error_facts.

(** C4.  Error taxonomy: a column that is not skipped raises a type error
    when it is not a string, a value error when it splits into a single
    field, and a value error when its second field is not an attribute of
    [feature_calculators].  When the columns before it were processed
    without raising, that error ends the call; and a call on an input
    with such a column never returns a mapping. *)
Theorem documented_errors_abort
    (feature_calculators : registry)
    (get_config_from_string : list string → pyresult (option config)) :
  (∀ columns_to_ignore earlier col later st e,
     Columns.from_columns feature_calculators get_config_from_string
       earlier columns_to_ignore = Ok st →
     Columns.taxonomy_error feature_calculators
       (default [] columns_to_ignore) col = Some e →
     Columns.from_columns feature_calculators get_config_from_string
       (earlier ++ col :: later) columns_to_ignore = Err e)
  ∧ (∀ columns_to_ignore columns,
       Exists (λ col,
                 is_Some (Columns.taxonomy_error feature_calculators
                            (default [] columns_to_ignore) col)) columns →
       ∃ e,
         Columns.from_columns feature_calculators get_config_from_string
           columns columns_to_ignore = Err e)
  ∧ (∀ ign col,
       py_in col ign = false →
       ((∀ s, col ≠ PyStr s) →
        Columns.taxonomy_error feature_calculators ign col
        = Some (TypeError ("Column name " +:+ py_str col
                           +:+ " should be a string or unicode")))
       ∧ (∀ s field,
            col = PyStr s → Str.split s = [field] →
            Columns.taxonomy_error feature_calculators ign col
            = Some (ValueError ("Splitting of columnname " +:+ s
                                +:+ " resulted in only one part.")))
       ∧ (∀ s kind feature_name rest,
            col = PyStr s → Str.split s = kind :: feature_name :: rest →
            feature_calculators !! feature_name = None →
            Columns.taxonomy_error feature_calculators ign col
            = Some (ValueError ("Unknown feature name " +:+ feature_name)))).
Proof.
  split; [|split].
  - intros ign earlier col later st e Hpre He. unfold Columns.from_columns in *.
    rewrite loop_app, Hpre. cbn.
    by rewrite (step_taxonomy_error _ _ _ _ _ _ He).
  - intros ign columns Hex. by apply loop_aborts.
  - intros ign col Hin. unfold Columns.taxonomy_error. rewrite Hin.
    split; [|split].
    + intros Hns. destruct col as [| | |s|]; try done. by destruct (Hns s).
    + intros s field -> Hs. by rewrite Hs.
    + intros s kind feature_name rest -> Hs Hreg. rewrite Hs.
      unfold hasattr_module. rewrite bool_decide_eq_false_2; [done|].
      rewrite Hreg. by intros [? ?].
Qed.

Lemma documented_errors_abort_witness :
  Demo.from_columns ([PyStr "kind__mean"] ++ PyInt 42 :: [PyStr "a"]) None
  = Err (TypeError "Column name 42 should be a string or unicode")
  ∧ (∃ e, Demo.from_columns [PyStr "kind__mean"; PyStr "a"] None = Err e)
  ∧ Columns.taxonomy_error Demo.feature_calculators []
      (PyStr "kind__nonexistent_calculator")
    = Some (ValueError "Unknown feature name nonexistent_calculator").
Proof.
  split; [|split].
  - apply (proj1 (documented_errors_abort Demo.feature_calculators
                    Demo.get_config_from_string) None [PyStr "kind__mean"]
             (PyInt 42) [PyStr "a"] {["kind" := {["mean" := None]}]}).
    + vm_compute. reflexivity.
    + reflexivity.
  - apply (proj1 (proj2 (documented_errors_abort Demo.feature_calculators
                           Demo.get_config_from_string)) None).
    apply Exists_cons_tl, Exists_cons_hd. by eexists.
  - apply (proj2 (proj2 (proj2 (proj2
             (documented_errors_abort Demo.feature_calculators
                Demo.get_config_from_string)) []
             (PyStr "kind__nonexistent_calculator") eq_refl))
             "kind__nonexistent_calculator" "kind" "nonexistent_calculator"
             []).
    + reflexivity.
    + reflexivity.
    + by vm_compute.
Defined.

(** Without the proviso on the earlier columns the statement fails: the
    two columns before [42] are a string each, split into more than one
    field and name an attribute of the module, yet the call ends on the
    second of them and not with the type error of [42]. *)
Lemma documented_errors_counterexample :
  Forall (λ col, Columns.taxonomy_error Demo.feature_calculators [] col = None)
    [PyStr "k__mean"; PyStr "k__mean__q_1"]
  ∧ Columns.taxonomy_error Demo.feature_calculators [] (PyInt 42)
    = Some (TypeError "Column name 42 should be a string or unicode")
  ∧ Demo.from_columns
      ([PyStr "k__mean"; PyStr "k__mean__q_1"] ++ [PyInt 42]) None
    = Err (AttributeError "'NoneType' object has no attribute 'append'")
  ∧ Demo.from_columns
      ([PyStr "k__mean"; PyStr "k__mean__q_1"] ++ [PyInt 42]) None
    ≠ Err (TypeError "Column name 42 should be a string or unicode").
Proof.
  split; [|split; [|split]].
  - repeat constructor.
  - reflexivity.
  - vm_compute. reflexivity.
  - vm_compute. discriminate.
Qed.

(** C10.  The ignore test comes first: a call reads its input as if the
    entries found in [columns_to_ignore] were not there, whatever they
    are, so no type error comes from a skipped entry that is not a
    string; [from_columns([42], columns_to_ignore=[42])] returns the empty
    mapping. *)
Theorem ignored_entries_are_skipped
    (feature_calculators : registry)
    (get_config_from_string : list string → pyresult (option config)) :
  (∀ columns columns_to_ignore,
     Columns.from_columns feature_calculators get_config_from_string
       columns (Some columns_to_ignore)
     = Columns.from_columns feature_calculators get_config_from_string
         (filter (λ col, py_in col columns_to_ignore = false) columns)
         (Some columns_to_ignore))
  ∧ (∀ columns_to_ignore st col,
       py_in col columns_to_ignore = true →
       Columns.from_columns_step feature_calculators get_config_from_string
         columns_to_ignore st col = Ok st)
  ∧ Columns.from_columns feature_calculators get_config_from_string
      [PyInt 42] (Some [PyInt 42]) = Ok ∅.
Proof.
  split; [|split].
  - intros columns ign. apply loop_filter.
  - intros ign st col Hin. by apply step_ignored.
  - reflexivity.
Qed.

Lemma ignored_entries_are_skipped_witness :
  Columns.from_columns_step Demo.feature_calculators
    Demo.get_config_from_string [PyStr "id"; PyInt 1] ∅ (PyBool true)
  = Ok ∅.
Proof.
  apply (proj1 (proj2 (ignored_entries_are_skipped Demo.feature_calculators
                         Demo.get_config_from_string))).
  reflexivity.
Defined.

(** ** Name validation *)

(** C9.  The calculator name is checked with [hasattr] on the module and
    nothing else: a column [kind__a] where [a] is any attribute of
    [feature_calculators] whose name does not hold the delimiter
    (callable or not, tagged with [fctype] or not) does not raise and
    gives the entry [{kind: {a: None}}], the codec returning a falsy
    config when there are no parameter fields. *)
Theorem module_attribute_is_accepted
    (feature_calculators : registry)
    (get_config_from_string : list string → pyresult (option config))
    (kind a : string) (attr : pyattr) (config : option (gmap string pyval)) :
  feature_calculators !! a = Some attr →
  Str.inner_field kind = true →
  Str.no_delim a = true →
  get_config_from_string [kind; a] = Ok config →
  Columns.config_truthy config = false →
  Columns.from_columns feature_calculators get_config_from_string
    [PyStr (kind +:+ "__" +:+ a)] None
  = Ok {[kind := {[a := None]}]}.
Proof.
  intros Hreg Hkind Ha Hcodec Hfalsy. unfold Columns.from_columns.
  cbn [default Columns.from_columns_loop].
  assert (Str.split (kind +:+ "__" +:+ a) = [kind; a]) as Hsplit.
  { by rewrite split_app, split_single. }
  rewrite (step_of_view _ _ _ _ _ kind a config).
  2:{ unfold Columns.column_view. cbn [py_in existsb].
      by rewrite Hsplit, Hcodec. }
  unfold hasattr_module. rewrite bool_decide_eq_true_2 by by rewrite Hreg.
  unfold Columns.record_config. rewrite next_value_falsy by done. cbn.
  unfold Columns.store2. rewrite lookup_empty. cbn.
  by rewrite !insert_empty.
Qed.

Lemma module_attribute_is_accepted_witness :
  Demo.from_columns [PyStr ("k" +:+ "__" +:+ "np")] None
  = Ok {["k" := {["np" := None]}]}.
Proof.
  apply (module_attribute_is_accepted Demo.feature_calculators
           Demo.get_config_from_string "k" "np" Demo.plain_attribute None).
  - vm_compute. reflexivity.
  - reflexivity.
  - reflexivity.
  - reflexivity.
  - reflexivity.
Defined.

(** Every module has the attribute [__name__]; the column that names it
    splits into empty fields and is rejected. *)
Lemma module_attribute_counterexample :
  Demo.feature_calculators !! "__name__" = Some Demo.plain_attribute
  ∧ Demo.from_columns [PyStr ("k" +:+ "__" +:+ "__name__")] None
    = Err (ValueError "Unknown feature name ")
  ∧ ¬ ∃ R, Demo.from_columns [PyStr ("k" +:+ "__" +:+ "__name__")] None
           = Ok R.
Proof.
  split; [|split].
  - vm_compute. reflexivity.
  - vm_compute. reflexivity.
  - intros [R HR]. vm_compute in HR. discriminate.
Qed.

(** ** Reading a settings object back *)

Section round_trip_facts.
Import Columns Naming.
Context (feature_calculators : registry).
Context (get_config_from_string : list string → pyresult (option config)).
Context (param_tokens : config → list string) (kind : string).

Abbreviation loop0 :=
  (from_columns_loop feature_calculators get_config_from_string []).
Implicit Types (st : kind_to_fc) (name : string) (v : fc_value).

Lemma store2_store2 st k f v v' :
  store2 (store2 st k f v) k f v' = store2 st k f v'.
Proof.
  unfold store2. rewrite lookup_insert_eq. cbn.
  by rewrite !insert_insert_eq.
Qed.

(** The column of one parameter dict, read by the loop body. *)
Lemma step_param st name p :
  is_Some (feature_calculators !! name) →
  param_round_trips get_config_from_string param_tokens kind name p →
  from_columns_step feature_calculators get_config_from_string [] st
    (PyStr (column_name kind name (param_tokens p)))
  = record_config st kind name (Some p).
Proof.
  intros Hreg (Hp & Hread & Hcodec).
  rewrite (step_of_view _ _ _ _ _ kind name (Some p)).
  - unfold hasattr_module. by rewrite bool_decide_eq_true_2.
  - unfold column_view, column_name. cbn [py_in existsb].
    by rewrite (split_join _ Hread), Hcodec.
Qed.

(** The columns of the later dicts of a calculator extend its list. *)
Lemma loop_params st name l params :
  is_Some (feature_calculators !! name) →
  Forall (param_round_trips get_config_from_string param_tokens kind name)
    params →
  loop0 ((λ p, PyStr (column_name kind name (param_tokens p))) <$> params)
    (store2 st kind name (Some l))
  = Ok (store2 st kind name (Some (l ++ params))).
Proof.
  intros Hreg Hall. revert l.
  induction Hall as [|p params Hp Hall IH]; intros l.
  { cbn. by rewrite app_nil_r. }
  cbn [fmap list_fmap from_columns_loop].
  rewrite (step_param _ _ _ Hreg Hp). unfold record_config.
  rewrite lookup2_store2, bool_decide_eq_true_2 by done.
  destruct Hp as (Hne & _). cbn. rewrite Hne. cbn.
  rewrite store2_store2, IH. by rewrite <- app_assoc.
Qed.

(** The columns of one calculator store its value. *)
Lemma loop_item st (item : string * fc_value) :
  lookup2 st kind item.1 = None →
  item_round_trips feature_calculators get_config_from_string param_tokens
    kind item →
  loop0 (item_columns param_tokens kind item) st
  = Ok (store2 st kind item.1 item.2).
Proof.
  destruct item as [name [params|]]; intros Hfresh [Hreg Hitem];
    unfold item_columns; cbn [fst snd] in *.
  - destruct Hitem as [Hne Hall]. destruct params as [|p params]; [done|].
    apply Forall_cons in Hall as [Hp Hall].
    cbn [fmap list_fmap from_columns_loop].
    rewrite (step_param _ _ _ Hreg Hp). unfold record_config.
    rewrite Hfresh. destruct Hp as (Hpne & _). cbn. rewrite Hpne. cbn.
    by rewrite (loop_params _ _ _ _ Hreg Hall).
  - destruct Hitem as (Hread & c & Hcodec & Hfalsy).
    cbn [from_columns_loop].
    rewrite (step_of_view _ _ _ _ _ kind name c).
    2:{ unfold column_view, column_name. cbn [py_in existsb].
        by rewrite (split_join _ Hread), Hcodec. }
    unfold hasattr_module. rewrite bool_decide_eq_true_2 by done.
    unfold record_config. by rewrite next_value_falsy.
Qed.

(** All the calculators, one after the other. *)
Lemma loop_items st (items : list (string * fc_value)) :
  NoDup items.*1 →
  (∀ name, name ∈ items.*1 → lookup2 st kind name = None) →
  Forall (item_round_trips feature_calculators get_config_from_string
            param_tokens kind) items →
  loop0 (settings_columns param_tokens kind items) st
  = Ok (fold_left (λ st item, store2 st kind item.1 item.2) items st).
Proof.
  unfold settings_columns. intros Hnd Hfresh Hall. revert st Hnd Hfresh.
  induction Hall as [|item items Hitem Hall IH]; intros st Hnd Hfresh;
    [done|].
  cbn in Hnd. apply NoDup_cons in Hnd as [Hnotin Hnd].
  cbn [mbind list_bind]. rewrite loop_app.
  rewrite loop_item; [|apply Hfresh; by left|done]. cbn.
  apply IH; [done|]. intros name Hin.
  rewrite lookup2_store2, bool_decide_eq_false_2.
  - apply Hfresh. by right.
  - intros [_ Heq]. apply Hnotin. by rewrite Heq.
Qed.

(** Storing under one kind builds the settings object of that kind. *)
Lemma fold_store2 st (items : list (string * fc_value)) :
  items ≠ [] →
  fold_left (λ st item, store2 st kind item.1 item.2) items st
  = <[kind := dict_update (default ∅ (st !! kind)) items]> st.
Proof.
  revert st. induction items as [|item items IH]; intros st Hne; [done|].
  cbn [fold_left]. destruct items as [|item' items]; [done|].
  rewrite IH by done. unfold store2 at 1 2.
  rewrite lookup_insert_eq. cbn [default]. by rewrite insert_insert_eq.
Qed.

(** The items of a dict, in any order, build the dict. *)
Lemma dict_literal_items (S : fc_parameters) (items : list (string * fc_value)) :
  items ≡ₚ map_to_list S → dict_literal items = S.
Proof.
  intros Hperm. assert (NoDup items.*1) as Hnd.
  { rewrite Hperm. apply NoDup_fst_map_to_list. }
  apply map_eq. intros name. destruct (S !! name) as [v|] eqn:HS.
  - apply dict_literal_lookup_in; [done|].
    rewrite Hperm. by apply elem_of_map_to_list.
  - apply dict_literal_lookup_notin. intros Hin.
    apply list_elem_of_fmap in Hin as ([name' v] & -> & Hin).
    rewrite Hperm in Hin. apply elem_of_map_to_list in Hin. cbn in HS.
    congruence.
Qed.

End round_trip_facts.

(** C1.  Round trip: for a settings object [S] that is not empty, whose
    calculators are attributes of the module, whose values are [None] or
    a non-empty list of non-empty parameter dicts, and whose column names
    are made of readable fields that the codec decodes back, the column
    names written for [S] under a kind, in any order of its calculators,
    are read back by [from_columns] (with no ignore-set) as the mapping
    that holds [S] for that kind and nothing else: each list with the
    same dicts in the same order, each [None] as [None]. *)
Theorem settings_round_trip
    (feature_calculators : registry)
    (get_config_from_string : list string → pyresult (option config))
    (param_tokens : config → list string) (kind : string)
    (S : fc_parameters) (items : list (string * fc_value)) :
  S ≠ ∅ →
  items ≡ₚ map_to_list S →
  Forall (Naming.item_round_trips feature_calculators get_config_from_string
            param_tokens kind) items →
  Columns.from_columns feature_calculators get_config_from_string
    (Naming.settings_columns param_tokens kind items) None
  = Ok {[kind := S]}.
Proof.
  intros Hne Hperm Hall. unfold Columns.from_columns. cbn [default].
  assert (items ≠ []) as Hitems.
  { intros ->. apply Hne, map_to_list_empty_iff.
    symmetry. by apply Permutation_nil_l. }
  rewrite loop_items; [|by rewrite Hperm; apply NoDup_fst_map_to_list|done
                       |done].
  rewrite fold_store2 by done. rewrite lookup_empty. cbn [default].
  change (dict_update ∅ items) with (dict_literal items).
  rewrite (dict_literal_items S) by done. by rewrite insert_empty.
Qed.

Lemma settings_round_trip_witness :
  Demo.from_columns
    (Naming.settings_columns Demo.param_tokens "x" Demo.settings_items) None
  = Ok {["x" := Demo.settings]}.
Proof.
  apply (settings_round_trip Demo.feature_calculators
           Demo.get_config_from_string Demo.param_tokens "x"
           Demo.settings Demo.settings_items).
  - intros H. apply (f_equal (λ m : fc_parameters, m !! "mean")) in H.
    vm_compute in H. discriminate.
  - replace (map_to_list Demo.settings) with Demo.settings_items
      by (vm_compute; reflexivity).
    reflexivity.
  - repeat constructor.
    + eexists. vm_compute. reflexivity.
    + eexists. split; vm_compute; reflexivity.
    + eexists. vm_compute. reflexivity.
    + discriminate.
Defined.

(** The empty settings object writes no column, and no column gives the
    empty mapping: the kind is not a key of the result. *)
Lemma settings_round_trip_counterexample :
  Demo.from_columns
    (Naming.settings_columns Demo.param_tokens "x"
       (map_to_list (∅ : fc_parameters))) None
  = Ok ∅
  ∧ Demo.from_columns
      (Naming.settings_columns Demo.param_tokens "x"
         (map_to_list (∅ : fc_parameters))) None
    ≠ Ok {["x" := ∅]}.
Proof.
  split.
  - vm_compute. reflexivity.
  - intros H. vm_compute in H. discriminate.
Qed.

(** A calculator whose list of parameter dicts is empty writes no column
    either, and is lost. *)
Example empty_list_is_not_read_back :
  Demo.from_columns
    (Naming.settings_columns Demo.param_tokens "x"
       [("mean", None); ("number_peaks", Some [])]) None
  = Ok {["x" := {["mean" := None]}]}.
Proof. vm_compute. reflexivity. Qed.

(** A kind that ends with an underscore is not read back as written. *)
Example trailing_underscore_moves :
  Demo.from_columns
    (Naming.settings_columns Demo.param_tokens "x_" [("mean", None)]) None
  = Err (ValueError "Unknown feature name _mean").
Proof. vm_compute. reflexivity. Qed.

(** * Further properties *)

(** ** The index-based and time-based settings *)

Section more_settings_facts.
Implicit Types (feature_calculators : registry).

Lemma py_eq_str (a : pyobj) (s : string) :
  py_eq a (PyStr s) = true ↔ a = PyStr s.
Proof.
  destruct a as [| | |s'|]; cbn; try (split; [done|discriminate]).
  rewrite bool_decide_eq_true. split; [by intros ->|by intros [= ->]].
Qed.

Lemma py_eq_class (a : pyobj) (q : string) :
  py_eq a (PyClass q) = true ↔ a = PyClass q.
Proof.
  destruct a as [| | | |q']; cbn; try (split; [done|discriminate]).
  rewrite bool_decide_eq_true. split; [by intros ->|by intros [= ->]].
Qed.

(** Lines 109 to 111 write nothing but [None], and only at the names of
    parameterless calculators. *)
Lemma name_to_param_fold_inv (items : list (string * pyattr))
    (self : fc_parameters) name v :
  fold_left
    (λ name_to_param '(name, func),
       if FC.parameterless func then <[name := None]> name_to_param
       else name_to_param) items self !! name = Some v →
  self !! name = Some v
  ∨ (v = None ∧ ∃ func, (name, func) ∈ items ∧ FC.parameterless func = true).
Proof.
  revert self. induction items as [|[k func] items IH]; intros self H.
  { by left. }
  cbn in H. apply IH in H as [H|(-> & func' & Hin & Hpar)].
  - destruct (FC.parameterless func) eqn:Hpar; [|by left].
    destruct (decide (k = name)) as [->|Hne].
    + rewrite lookup_insert_eq in H. injection H as <-. right.
      split; [done|]. exists func. split; [by left|done].
    + rewrite lookup_insert_ne in H by done. by left.
  - right. split; [done|]. exists func'. split; [by right|done].
Qed.

Lemma name_to_param_init_spec feature_calculators name :
  FC.name_to_param_init feature_calculators !! name
  = match feature_calculators !! name with
    | Some func => if FC.parameterless func then Some None else None
    | None => None
    end.
Proof.
  destruct (FC.name_to_param_init feature_calculators !! name) as [v|] eqn:Hv.
  - apply name_to_param_fold_inv in Hv as [Hv|(-> & func & Hin & Hpar)].
    { by rewrite lookup_empty in Hv. }
    apply elem_of_map_to_list in Hin. by rewrite Hin, Hpar.
  - destruct (feature_calculators !! name) as [func|] eqn:Hreg; [|done].
    destruct (FC.parameterless func) eqn:Hpar; [|done].
    by rewrite (name_to_param_init_lookup _ _ _ Hreg Hpar) in Hv.
Qed.

Lemma dict_literal_lookup_Some {V} (items : list (string * V)) k v :
  dict_literal items !! k = Some v → (k, v) ∈ items.
Proof.
  induction items as [|[k' v'] items IH] using rev_ind.
  { unfold dict_literal, dict_update. cbn. by rewrite lookup_empty. }
  unfold dict_literal in *. rewrite dict_update_snoc.
  destruct (decide (k' = k)) as [->|Hne].
  - rewrite lookup_insert_eq. intros [= ->]. apply elem_of_app. right.
    by left.
  - rewrite lookup_insert_ne by done. intros H. apply elem_of_app. left.
    by apply IH.
Qed.

Lemma overlay_values_ok : forallb Shape.fc_value_ok FC.overlay.*2 = true.
Proof. by vm_compute. Qed.

End more_settings_facts.

(** X1.  Index-based filter: for a calculator [name] of the module with
    metadata [f], the index-based settings keep the comprehensive entry
    when the attribute [input] of [f] is the string ["pd.Series"], and
    have no key [name] in every other case, the absent attribute
    included. *)
Theorem index_based_keeps_series_input
    (feature_calculators : registry) (name : string) (f : pyattr) :
  feature_calculators !! name = Some f →
  (input f = Some (PyStr "pd.Series") →
   FC.IndexBasedFCParameters feature_calculators !! name
   = FC.ComprehensiveFCParameters feature_calculators !! name)
  ∧ (input f ≠ Some (PyStr "pd.Series") →
     FC.IndexBasedFCParameters feature_calculators !! name = None).
Proof.
  intros Hreg. unfold FC.IndexBasedFCParameters.
  rewrite drop_loop_lookup, Hreg. unfold FC.drop_index_based. split.
  - intros ->. done.
  - intros Hne.
    destruct (py_eq (getattr_default (input f) PyNone) (PyStr "pd.Series"))
      eqn:Heq; [|done].
    apply py_eq_str in Heq. destruct (input f) as [v|]; [|done].
    cbn in Heq. by subst.
Qed.

Lemma index_based_keeps_series_input_witness :
  FC.IndexBasedFCParameters Demo.feature_calculators !! "mean" = None.
Proof.
  apply (index_based_keeps_series_input Demo.feature_calculators "mean" _
           ltac:(vm_compute; reflexivity)).
  discriminate.
Defined.

(** X2.  Time-based filter: for a calculator [name] of the module with
    metadata [f], the time-based settings keep the comprehensive entry
    when the attribute [index_type] of [f] is the class
    [pd.DatetimeIndex], and have no key [name] in every other case, the
    absent attribute included. *)
Theorem time_based_keeps_datetime_index
    (feature_calculators : registry) (name : string) (f : pyattr) :
  feature_calculators !! name = Some f →
  (index_type f = Some pd_DatetimeIndex →
   FC.TimeBasedFCParameters feature_calculators !! name
   = FC.ComprehensiveFCParameters feature_calculators !! name)
  ∧ (index_type f ≠ Some pd_DatetimeIndex →
     FC.TimeBasedFCParameters feature_calculators !! name = None).
Proof.
  intros Hreg. unfold FC.TimeBasedFCParameters.
  rewrite drop_loop_lookup, Hreg. unfold FC.drop_time_based. split.
  - intros ->. done.
  - intros Hne.
    destruct (py_eq (getattr_default (index_type f) (PyBool false))
                pd_DatetimeIndex) eqn:Heq; [|done].
    apply py_eq_class in Heq. destruct (index_type f) as [v|]; [|done].
    cbn in Heq. by subst.
Qed.

Lemma time_based_keeps_datetime_index_witness :
  FC.TimeBasedFCParameters Demo.feature_calculators !! "sample_entropy"
  = None.
Proof.
  apply (time_based_keeps_datetime_index Demo.feature_calculators
           "sample_entropy" _ ltac:(vm_compute; reflexivity)).
  discriminate.
Defined.

(** X3.  The comprehensive settings hold nothing else: the entry of a name
    is the one of the overlay table when the table has the name;
    otherwise it is [None] when the module has a callable attribute of
    that name that carries [fctype] and takes one positional argument;
    otherwise the name is not a key. *)
Theorem comprehensive_entries
    (feature_calculators : registry) (name : string) :
  FC.ComprehensiveFCParameters feature_calculators !! name
  = match dict_literal FC.overlay !! name with
    | Some v => Some v
    | None =>
        match feature_calculators !! name with
        | Some func =>
            if is_callable func && bool_decide (is_Some (fctype func))
               && (n_args func =? 1)%nat
            then Some None else None
        | None => None
        end
    end.
Proof.
  unfold FC.ComprehensiveFCParameters.
  by rewrite dict_update_lookup, name_to_param_init_spec.
Qed.

(** X4.  Every value of the comprehensive settings, and so of the four
    variants, is [None] or a list that is not empty of parameter dicts
    that are not empty. *)
Theorem settings_values_ok
    (feature_calculators : registry) (name : string) (v : fc_value) :
  FC.ComprehensiveFCParameters feature_calculators !! name = Some v
  ∨ FC.MinimalFCParameters feature_calculators !! name = Some v
  ∨ FC.EfficientFCParameters feature_calculators !! name = Some v
  ∨ FC.IndexBasedFCParameters feature_calculators !! name = Some v
  ∨ FC.TimeBasedFCParameters feature_calculators !! name = Some v →
  Shape.fc_value_ok v = true.
Proof.
  intros H.
  assert (FC.ComprehensiveFCParameters feature_calculators !! name = Some v)
    as Hv.
  { destruct H as [H|[H|[H|[H|H]]]]; [done|..];
      by apply (lookup_weaken _ _ _ _ H), drop_loop_subseteq. }
  clear H. unfold FC.ComprehensiveFCParameters in Hv.
  rewrite dict_update_lookup in Hv.
  destruct (dict_literal FC.overlay !! name) as [v'|] eqn:Hov.
  - injection Hv as ->. apply dict_literal_lookup_Some in Hov.
    pose proof overlay_values_ok as Hall.
    rewrite forallb_forall in Hall. apply Hall.
    apply list_elem_of_In, list_elem_of_fmap. by exists (name, v).
  - rewrite name_to_param_init_spec in Hv.
    destruct (feature_calculators !! name) as [func|]; [|done].
    destruct (FC.parameterless func); [|done]. by injection Hv as <-.
Qed.

Lemma settings_values_ok_witness :
  Shape.fc_value_ok
    (Some [dict_literal [("min", VInt (-1)); ("max", VInt 1)]]) = true.
Proof.
  apply (settings_values_ok Demo.feature_calculators "range_count").
  left. vm_compute. reflexivity.
Defined.

(** X5.  A name of the overlay table that is not an attribute of the
    module is never deleted: it is a key of all four variants, with the
    value of the table. *)
Theorem unregistered_overlay_name_survives
    (feature_calculators : registry) (name : string) (v : fc_value) :
  feature_calculators !! name = None →
  (name, v) ∈ FC.overlay →
  FC.MinimalFCParameters feature_calculators !! name = Some v
  ∧ FC.EfficientFCParameters feature_calculators !! name = Some v
  ∧ FC.IndexBasedFCParameters feature_calculators !! name = Some v
  ∧ FC.TimeBasedFCParameters feature_calculators !! name = Some v.
Proof.
  intros Hreg Hin.
  assert (FC.ComprehensiveFCParameters feature_calculators !! name = Some v)
    as Hv.
  { unfold FC.ComprehensiveFCParameters. rewrite dict_update_lookup.
    by rewrite (dict_literal_lookup_in _ _ _ overlay_names_distinct Hin). }
  unfold FC.MinimalFCParameters, FC.EfficientFCParameters,
    FC.IndexBasedFCParameters, FC.TimeBasedFCParameters.
  by rewrite !drop_loop_unregistered.
Qed.

Lemma unregistered_overlay_name_survives_witness :
  FC.MinimalFCParameters Demo.feature_calculators !! "range_count"
  = Some (Some [dict_literal [("min", VInt (-1)); ("max", VInt 1)]]).
Proof.
  apply (unregistered_overlay_name_survives Demo.feature_calculators
           "range_count").
  - vm_compute. reflexivity.
  - by apply (list_elem_of_lookup_2 _ 16).
Defined.

(** ** More on splitting *)

Section more_split_facts.
Import Str.

Lemma is_us_eq c : is_us c = true → c = "_"%char.
Proof. apply Ascii.eqb_eq. Qed.

Lemma join_push c field fields :
  join (push c (field :: fields)) = String c (join (field :: fields)).
Proof. cbn. by destruct fields. Qed.

Lemma join_cons_nonempty field fields :
  fields ≠ [] → join (field :: fields) = field +:+ "__" +:+ join fields.
Proof. by destruct fields. Qed.

Lemma split_cons_cons c c' rest :
  split (String c (String c' rest))
  = if is_us c && is_us c' then "" :: split rest
    else push c (split (String c' rest)).
Proof. done. Qed.

(** The first field starts where the text starts. *)
Lemma split_head c rest field fields :
  split (String c rest) = field :: fields →
  field = "" ∨ ∃ field', field = String c field'.
Proof.
  destruct rest as [|c' rest'].
  - cbn. intros [= <- <-]. right. by exists "".
  - rewrite split_cons_cons. destruct (is_us c && is_us c').
    + intros [= <- _]. by left.
    + pose proof (split_nonempty (String c' rest')) as Hne.
      destruct (split (String c' rest')) as [|f0 fs]; [done|].
      cbn. intros [= <- _]. right. by exists f0.
Qed.

Lemma join_split_step s :
  join (split s) = s ∧ ∀ c, join (split (String c s)) = String c s.
Proof.
  induction s as [|c' rest' [IH1 IH2]].
  - by split.
  - split; [apply IH2|]. intros c. rewrite split_cons_cons.
    destruct (is_us c && is_us c') eqn:Hcc.
    + apply andb_true_iff in Hcc as [->%is_us_eq ->%is_us_eq].
      rewrite join_cons_nonempty by apply split_nonempty.
      by rewrite IH1.
    + pose proof (split_nonempty (String c' rest')) as Hne.
      specialize (IH2 c').
      destruct (split (String c' rest')) as [|f0 fs]; [done|].
      by rewrite join_push, IH2.
Qed.

Lemma no_delim_cons c field :
  no_delim (String c field) = true ↔
  no_delim field = true
  ∧ ∀ c' field', field = String c' field' → (is_us c && is_us c') = false.
Proof.
  destruct field as [|c' field'].
  - cbn. split; [by intros _; split|done].
  - change (no_delim (String c (String c' field')))
      with (negb (is_us c && is_us c') && no_delim (String c' field')).
    rewrite andb_true_iff, negb_true_iff. split.
    + intros [Hcc Hnd]. split; [done|]. by intros ? ? [= <- <-].
    + intros [Hnd Hcc]. split; [by apply (Hcc c' field')|done].
Qed.

Lemma split_no_delim_step s :
  Forall (λ field, no_delim field = true) (split s)
  ∧ ∀ c, Forall (λ field, no_delim field = true) (split (String c s)).
Proof.
  induction s as [|c' rest' [IH1 IH2]].
  - split; [by repeat constructor|]. intros c. by repeat constructor.
  - split; [apply IH2|]. intros c. rewrite split_cons_cons.
    destruct (is_us c && is_us c') eqn:Hcc.
    + by constructor.
    + specialize (IH2 c').
      destruct (split (String c' rest')) as [|f0 fs] eqn:Hs;
        [by destruct (split_nonempty _ Hs)|].
      apply Forall_cons in IH2 as [Hf0 Hfs]. cbn. constructor; [|done].
      apply no_delim_cons. split; [done|]. intros c0 f0' ->.
      apply split_head in Hs as [Hs|(? & [= <- _])]; [done|]. done.
Qed.

End more_split_facts.

(** X6.  [split('__')] loses nothing and leaves no delimiter behind:
    joining the fields of any text with the delimiter gives the text
    back, there is always at least one field, and no field holds the
    delimiter. *)
Theorem split_fields (s : string) :
  Str.join (Str.split s) = s
  ∧ Str.split s ≠ []
  ∧ Forall (λ field, Str.no_delim field = true) (Str.split s).
Proof.
  split; [apply join_split_step|].
  split; [apply split_nonempty|apply split_no_delim_step].
Qed.

(** ** What a returned mapping looks like *)

Section more_columns_facts.
Import Columns.
Context (feature_calculators : registry).
Context (get_config_from_string : list string → pyresult (option config)).

Abbreviation step' :=
  (from_columns_step feature_calculators get_config_from_string).
Abbreviation loop' :=
  (from_columns_loop feature_calculators get_config_from_string).
Abbreviation view' := (column_view get_config_from_string).
Abbreviation configs' := (configs_of get_config_from_string).
Implicit Types (st R : kind_to_fc) (col : pyobj) (ign cols : list pyobj).
Implicit Types (k f : string) (c : option (gmap string pyval)).
Implicit Types (stored : option fc_value).

Lemma configs_of_elem ign k f cols c :
  c ∈ configs' ign k f cols
  ↔ ∃ col, col ∈ cols ∧ view' ign col = Some (k, f, c).
Proof.
  unfold configs_of. rewrite list_elem_of_omap. split.
  - intros (col & Hin & Hc). exists col. split; [done|].
    destruct (view' ign col) as [[[k' f'] c']|]; [|done].
    case_bool_decide as Hkf; [|done]. destruct Hkf as [-> ->].
    by injection Hc as ->.
  - intros (col & Hin & Hv). exists col. split; [done|]. rewrite Hv.
    by rewrite bool_decide_eq_true_2.
Qed.

Lemma loop_hasattr ign cols st R col k f c :
  loop' ign cols st = Ok R → col ∈ cols →
  view' ign col = Some (k, f, c) →
  hasattr_module feature_calculators f = true.
Proof.
  revert st. induction cols as [|col' cols IH]; intros st Hloop Hin Hv.
  { by apply elem_of_nil in Hin. }
  cbn [from_columns_loop] in Hloop.
  destruct (step' ign st col') as [st1|] eqn:Hstep; [|done].
  cbn in Hloop. apply elem_of_cons in Hin as [->|Hin]; [|by eapply IH].
  apply step_ok_inv in Hstep as [[Hign _]|(k' & f' & c' & Hv' & Hattr & _)].
  - unfold column_view in Hv. by rewrite Hign in Hv.
  - rewrite Hv in Hv'. by injection Hv' as <- <- <-.
Qed.

Lemma replay_cons_some stored c cs r :
  replay stored (c :: cs) = Ok r → is_Some r.
Proof.
  revert stored c. induction cs as [|c' cs IH]; intros stored c;
    cbn [replay]; destruct (next_value stored c) as [v|]; cbn; try done.
  - intros [= <-]. by eexists.
  - apply IH.
Qed.

Lemma dicts_truthy cs :
  Forall (λ c, config_truthy c = true) cs →
  length (dicts cs) = length cs
  ∧ forallb (λ d, negb (dict_is_empty d)) (dicts cs) = true.
Proof.
  induction 1 as [|c cs Hc _ [IHl IHf]]; [done|].
  destruct c as [d|]; [|done]. unfold dicts in *. cbn in *.
  rewrite IHl, Hc, IHf. done.
Qed.

(** Line 68 and the store that follows never leave an empty dict. *)
Lemma loop_inner_nonempty ign cols st R :
  (∀ k m, st !! k = Some m → m ≠ ∅) →
  loop' ign cols st = Ok R →
  ∀ k m, R !! k = Some m → m ≠ ∅.
Proof.
  revert st. induction cols as [|col cols IH]; intros st Hinv Hloop.
  { cbn in Hloop. by injection Hloop as <-. }
  cbn [from_columns_loop] in Hloop.
  destruct (step' ign st col) as [st1|] eqn:Hstep; [|done].
  cbn in Hloop. apply (IH st1); [|done].
  apply step_ok_inv in Hstep as [[_ ->]|(k' & f' & c' & _ & _ & Hrec)];
    [done|].
  apply record_config_inv in Hrec as (v & _ & ->).
  intros k m. unfold store2. destruct (decide (k' = k)) as [->|Hne].
  - rewrite lookup_insert_eq. intros [= <-]. apply insert_non_empty.
  - rewrite lookup_insert_ne by done. apply Hinv.
Qed.

(** Parameterless configs only: the replay goes through. *)
Lemma replay_falsy stored cs :
  Forall (λ c, config_truthy c = false) cs →
  replay stored cs = Ok (if cs is [] then stored else Some None).
Proof.
  intros Hall. revert stored.
  induction Hall as [|c cs Hc Hall IH]; intros stored; [done|].
  cbn [replay]. rewrite next_value_falsy by done. cbn. rewrite IH.
  by destruct cs.
Qed.

(** After a parameterless config, only parameterless configs go through. *)
Lemma replay_after_none cs r :
  replay (Some None) cs = Ok r → Forall (λ c, config_truthy c = false) cs.
Proof.
  induction cs as [|c cs IH]; [done|]. cbn [replay].
  destruct (config_truthy c) eqn:Hc.
  - destruct (next_value_truthy None c Hc) as (d & -> & -> & _). done.
  - rewrite next_value_falsy by done. cbn. intros H. constructor; [done|].
    by apply IH.
Qed.

(** The replay of a pair goes through exactly when its parameterized
    configs all come before its parameterless ones. *)
Lemma replay_ok_iff stored cs :
  stored ≠ Some None →
  (∃ r, replay stored cs = Ok r)
  ↔ ∃ cs1 cs2, cs = cs1 ++ cs2
               ∧ Forall (λ c, config_truthy c = true) cs1
               ∧ Forall (λ c, config_truthy c = false) cs2.
Proof.
  intros Hst. split.
  - revert stored Hst. induction cs as [|c cs IH]; intros stored Hst [r Hr].
    { by exists [], []. }
    cbn [replay] in Hr. destruct (config_truthy c) eqn:Hc.
    + destruct (next_value_truthy stored c Hc) as (d & -> & _ & Hnext).
      rewrite (Hnext Hst) in Hr. cbn in Hr.
      destruct (IH (Some (Some (stored_list stored ++ [d]))))
        as (cs1 & cs2 & -> & H1 & H2); [done|by exists r|].
      exists (Some d :: cs1), cs2. split; [done|]. split; [|done].
      by constructor.
    + rewrite next_value_falsy in Hr by done. cbn in Hr.
      apply replay_after_none in Hr. exists [], (c :: cs).
      split; [done|]. split; [done|]. by constructor.
  - intros (cs1 & cs2 & -> & H1 & H2). revert stored Hst.
    induction H1 as [|c cs1 Hc H1 IH]; intros stored Hst.
    { cbn. rewrite replay_falsy by done. by eexists. }
    destruct (next_value_truthy stored c Hc) as (d & -> & _ & Hnext).
    cbn [app replay]. rewrite (Hnext Hst). cbn. by apply IH.
Qed.

(** A call whose columns get through and whose pairs replay returns. *)
Lemma loop_returns ign cols st :
  Forall (Shape.column_ok feature_calculators get_config_from_string ign)
    cols →
  (∀ k f, ∃ r, replay (lookup2 st k f) (configs' ign k f cols) = Ok r) →
  ∃ R, loop' ign cols st = Ok R.
Proof.
  intros Hall. revert st.
  induction Hall as [|col cols Hcol Hall IH]; intros st Hrep.
  { by exists st. }
  cbn [from_columns_loop].
  destruct Hcol as [Hign|(k0 & f0 & c0 & Hv & Hattr)].
  - rewrite step_ignored by done. cbn. apply IH. intros k f.
    destruct (Hrep k f) as [r Hr]. exists r.
    rewrite configs_of_cons in Hr. unfold column_view in Hr.
    by rewrite Hign in Hr.
  - rewrite (step_of_view _ _ _ _ _ _ _ _ Hv), Hattr.
    unfold record_config.
    destruct (Hrep k0 f0) as [r0 Hr0]. rewrite configs_of_cons, Hv in Hr0.
    rewrite bool_decide_eq_true_2 in Hr0 by done. cbn [replay] in Hr0.
    destruct (next_value (lookup2 st k0 f0) c0) as [v|]; cbn in Hr0;
      [|done].
    cbn. apply IH. intros k f. rewrite lookup2_store2.
    case_bool_decide as Hkf.
    + destruct Hkf as [<- <-]. by exists r0.
    + destruct (Hrep k f) as [r Hr]. exists r.
      rewrite configs_of_cons, Hv in Hr.
      by rewrite bool_decide_eq_false_2 in Hr.
Qed.

Lemma loop_columns_ok ign cols st R :
  loop' ign cols st = Ok R →
  Forall (Shape.column_ok feature_calculators get_config_from_string ign)
    cols.
Proof.
  revert st. induction cols as [|col cols IH]; intros st Hloop; [done|].
  cbn [from_columns_loop] in Hloop.
  destruct (step' ign st col) as [st1|] eqn:Hstep; [|done].
  cbn in Hloop. constructor; [|by eapply IH].
  apply step_ok_inv in Hstep as [[Hign _]|(k & f & c & Hv & Hattr & _)].
  - by left.
  - right. by exists k, f, c.
Qed.


End more_columns_facts.

(** X7.  Every calculator name of a returned mapping is an attribute of
    the module, and neither the kinds nor the calculator names of a
    returned mapping hold the delimiter. *)
Theorem result_names_are_validated
    (feature_calculators : registry)
    (get_config_from_string : list string → pyresult (option config))
    (columns : list pyobj) (columns_to_ignore : option (list pyobj))
    (R : kind_to_fc) (kind feature_name : string) (v : fc_value) :
  Columns.from_columns feature_calculators get_config_from_string
    columns columns_to_ignore = Ok R →
  Columns.lookup2 R kind feature_name = Some v →
  is_Some (feature_calculators !! feature_name)
  ∧ Str.no_delim kind = true
  ∧ Str.no_delim feature_name = true.
Proof.
  unfold Columns.from_columns. intros Hret Hv.
  set (ign := default [] columns_to_ignore) in *.
  pose proof (loop_replay _ _ _ _ _ _ kind feature_name Hret) as Hrep.
  rewrite Hv in Hrep.
  destruct (Columns.configs_of get_config_from_string ign kind feature_name
              columns) as [|c cs] eqn:Hcs; [done|].
  assert (c ∈ Columns.configs_of get_config_from_string ign kind
                feature_name columns) as Hc by (rewrite Hcs; by left).
  apply configs_of_elem in Hc as (col & Hin & Hview).
  split.
  - pose proof (loop_hasattr _ _ _ _ _ _ _ _ _ _ Hret Hin Hview) as Hattr.
    by apply bool_decide_eq_true in Hattr.
  - apply view_inv in Hview as (_ & s & rest & _ & Hs & _).
    pose proof (split_no_delim_step s) as [Hall _]. rewrite Hs in Hall.
    apply Forall_cons in Hall as [Hk Hall].
    apply Forall_cons in Hall as [Hf _]. done.
Qed.

Lemma result_names_are_validated_witness :
  is_Some (Demo.feature_calculators !! "mean")
  ∧ Str.no_delim "kind" = true ∧ Str.no_delim "mean" = true.
Proof.
  apply (result_names_are_validated Demo.feature_calculators
           Demo.get_config_from_string [PyStr "id"; PyStr "kind__mean"]
           (Some [PyStr "id"]) {["kind" := {["mean" := None]}]}
           "kind" "mean" None).
  - vm_compute. reflexivity.
  - vm_compute. reflexivity.
Defined.

(** X8.  Every value of a returned mapping is [None] or a list that is
    not empty of parameter dicts that are not empty. *)
Theorem result_values_ok
    (feature_calculators : registry)
    (get_config_from_string : list string → pyresult (option config))
    (columns : list pyobj) (columns_to_ignore : option (list pyobj))
    (R : kind_to_fc) (kind feature_name : string) (v : fc_value) :
  Columns.from_columns feature_calculators get_config_from_string
    columns columns_to_ignore = Ok R →
  Columns.lookup2 R kind feature_name = Some v →
  Shape.fc_value_ok v = true.
Proof.
  unfold Columns.from_columns. intros Hret Hv.
  apply (loop_replay _ _ _ _ _ _ kind feature_name) in Hret.
  rewrite Hv in Hret. destruct v as [L|]; [|done].
  change (Columns.lookup2 ∅ kind feature_name) with (@None fc_value) in Hret.
  destruct (Columns.configs_of _ _ _ _ _) as [|c cs] eqn:Hcs; [done|].
  apply replay_list_inv in Hret as [Hall ->]; [|done].
  apply dicts_truthy in Hall as [Hlen Hne]. cbn [Columns.stored_list app].
  unfold Shape.fc_value_ok. rewrite Hne, andb_true_r.
  apply negb_true_iff, bool_decide_eq_false. intros Hnil.
  by rewrite Hnil in Hlen.
Qed.

Lemma result_values_ok_witness :
  Shape.fc_value_ok
    (Some [{["q" := VFloat 0.1]}; {["q" := VFloat 0.2]}]) = true.
Proof.
  apply (result_values_ok Demo.feature_calculators
           Demo.get_config_from_string
           [PyStr "k__quantile__q_0.1"; PyStr "k__quantile__q_0.2"] None
           {["k" := {["quantile" :=
               Some [{["q" := VFloat 0.1]}; {["q" := VFloat 0.2]}] ]} ]}
           "k" "quantile").
  - vm_compute. reflexivity.
  - vm_compute. reflexivity.
Defined.

(** X9.  A returned mapping covers the pairs seen in the input and no
    other: a pair has an entry exactly when a column that is not skipped
    has its kind and its calculator name as first and second field; and
    no kind maps to an empty dict. *)
Theorem result_covers_observed_pairs
    (feature_calculators : registry)
    (get_config_from_string : list string → pyresult (option config))
    (columns : list pyobj) (columns_to_ignore : option (list pyobj))
    (R : kind_to_fc) :
  Columns.from_columns feature_calculators get_config_from_string
    columns columns_to_ignore = Ok R →
  (∀ kind feature_name,
     is_Some (Columns.lookup2 R kind feature_name)
     ↔ ∃ col config,
         col ∈ columns
         ∧ Columns.column_view get_config_from_string
             (default [] columns_to_ignore) col
           = Some (kind, feature_name, config))
  ∧ (∀ kind fc, R !! kind = Some fc → fc ≠ ∅).
Proof.
  unfold Columns.from_columns. intros Hret.
  set (ign := default [] columns_to_ignore) in *. split.
  - intros k f.
    pose proof (loop_replay _ _ _ _ _ _ k f Hret) as Hrep.
    change (Columns.lookup2 ∅ k f) with (@None fc_value) in Hrep.
    destruct (Columns.configs_of get_config_from_string ign k f columns)
      as [|c cs] eqn:Hcs.
    + cbn in Hrep. injection Hrep as <-. split; [by intros [? ?]|].
      intros (col & c & Hin & Hv).
      assert (c ∈ Columns.configs_of get_config_from_string ign k f columns)
        as Hc by (apply configs_of_elem; by exists col).
      rewrite Hcs in Hc. by apply elem_of_nil in Hc.
    + split; [|intros _; by apply replay_cons_some in Hrep].
      intros _.
      assert (c ∈ Columns.configs_of get_config_from_string ign k f columns)
        as Hc by (rewrite Hcs; by left).
      apply configs_of_elem in Hc as (col & Hin & Hv). by exists col, c.
  - apply (loop_inner_nonempty feature_calculators get_config_from_string
             ign columns ∅ R); [|done].
    intros k m. by rewrite lookup_empty.
Qed.

Lemma result_covers_observed_pairs_witness :
  (∀ kind feature_name,
     is_Some (Columns.lookup2 {["kind" := {["mean" := None]}]}
                kind feature_name)
     ↔ ∃ col config,
         col ∈ [PyStr "id"; PyStr "kind__mean"]
         ∧ Columns.column_view Demo.get_config_from_string [PyStr "id"] col
           = Some (kind, feature_name, config))
  ∧ (∀ kind fc,
       ({["kind" := {["mean" := None]}]} : kind_to_fc) !! kind = Some fc →
       fc ≠ ∅).
Proof.
  apply (result_covers_observed_pairs Demo.feature_calculators
           Demo.get_config_from_string [PyStr "id"; PyStr "kind__mean"]
           (Some [PyStr "id"])).
  vm_compute. reflexivity.
Defined.

(** X10.  The entry of a pair depends on the columns of that pair alone:
    two calls that return and that read the same configs for a pair, in
    the same order, hold the same value for it, whatever their other
    columns. *)
Theorem entry_depends_on_own_columns
    (feature_calculators : registry)
    (get_config_from_string : list string → pyresult (option config))
    (columns1 columns2 : list pyobj)
    (columns_to_ignore1 columns_to_ignore2 : option (list pyobj))
    (R1 R2 : kind_to_fc) (kind feature_name : string) :
  Columns.from_columns feature_calculators get_config_from_string
    columns1 columns_to_ignore1 = Ok R1 →
  Columns.from_columns feature_calculators get_config_from_string
    columns2 columns_to_ignore2 = Ok R2 →
  Columns.configs_of get_config_from_string (default [] columns_to_ignore1)
    kind feature_name columns1
  = Columns.configs_of get_config_from_string (default [] columns_to_ignore2)
      kind feature_name columns2 →
  Columns.lookup2 R1 kind feature_name = Columns.lookup2 R2 kind feature_name.
Proof.
  unfold Columns.from_columns. intros H1 H2 Heq.
  apply (loop_replay _ _ _ _ _ _ kind feature_name) in H1, H2.
  rewrite Heq, H2 in H1. by injection H1.
Qed.

Lemma entry_depends_on_own_columns_witness :
  Columns.lookup2
    ({["k" := {["number_peaks" := Some [{["n" := VInt 1]}];
                "mean" := None]} ]} : kind_to_fc) "k" "mean"
  = Columns.lookup2
      ({["k" := {["mean" := None]}]} : kind_to_fc) "k" "mean".
Proof.
  apply (entry_depends_on_own_columns Demo.feature_calculators
           Demo.get_config_from_string
           [PyStr "k__number_peaks__n_1"; PyStr "k__mean"]
           [PyStr "id"; PyStr "k__mean"] None (Some [PyStr "id"])).
  - vm_compute. reflexivity.
  - vm_compute. reflexivity.
  - vm_compute. reflexivity.
Defined.

(** ** How a call ends *)

(** X11.  Line 76 on a pair that holds [None]: when the columns read so
    far leave [None] for a pair, a parameterized column of that pair ends
    the call with the attribute error of [None.append], whatever comes
    after it. *)
Theorem append_on_none_ends_call
    (feature_calculators : registry)
    (get_config_from_string : list string → pyresult (option config))
    (columns_to_ignore : option (list pyobj))
    (earlier : list pyobj) (col : pyobj) (later : list pyobj)
    (st : kind_to_fc) (kind feature_name : string)
    (config : option (gmap string pyval)) :
  Columns.from_columns feature_calculators get_config_from_string
    earlier columns_to_ignore = Ok st →
  Columns.lookup2 st kind feature_name = Some None →
  Columns.column_view get_config_from_string (default [] columns_to_ignore)
    col = Some (kind, feature_name, config) →
  hasattr_module feature_calculators feature_name = true →
  Columns.config_truthy config = true →
  Columns.from_columns feature_calculators get_config_from_string
    (earlier ++ col :: later) columns_to_ignore
  = Err (AttributeError "'NoneType' object has no attribute 'append'").
Proof.
  unfold Columns.from_columns. intros Hpre Hnone Hview Hattr Hc.
  by apply (append_on_none_raises _ _ _ _ _ _ _ _ _ _ Hpre Hnone Hview).
Qed.

Lemma append_on_none_ends_call_witness :
  Demo.from_columns
    ([PyStr "k__quantile"] ++ PyStr "k__quantile__q_0.1" :: [PyInt 42]) None
  = Err (AttributeError "'NoneType' object has no attribute 'append'").
Proof.
  apply (append_on_none_ends_call Demo.feature_calculators
           Demo.get_config_from_string None [PyStr "k__quantile"]
           (PyStr "k__quantile__q_0.1") [PyInt 42]
           {["k" := {["quantile" := None]}]} "k" "quantile"
           (Some {["q" := VFloat 0.1]})).
  - vm_compute. reflexivity.
  - vm_compute. reflexivity.
  - vm_compute. reflexivity.
  - vm_compute. reflexivity.
  - vm_compute. reflexivity.
Defined.



(** X13.  The first exception decides: a call that raises on a list of
    columns raises the same exception on every list that starts with
    them, and a call that returns has returned on each of its prefixes. *)
Theorem prefix_decides
    (feature_calculators : registry)
    (get_config_from_string : list string → pyresult (option config))
    (columns_to_ignore : option (list pyobj))
    (earlier later : list pyobj) :
  (∀ e,
     Columns.from_columns feature_calculators get_config_from_string
       earlier columns_to_ignore = Err e →
     Columns.from_columns feature_calculators get_config_from_string
       (earlier ++ later) columns_to_ignore = Err e)
  ∧ (∀ R,
       Columns.from_columns feature_calculators get_config_from_string
         (earlier ++ later) columns_to_ignore = Ok R →
       ∃ st,
         Columns.from_columns feature_calculators get_config_from_string
           earlier columns_to_ignore = Ok st
         ∧ Columns.from_columns_loop feature_calculators
             get_config_from_string (default [] columns_to_ignore) later st
           = Ok R).
Proof.
  unfold Columns.from_columns. split.
  - intros e He. by rewrite loop_app, He.
  - intros R. rewrite loop_app.
    destruct (Columns.from_columns_loop _ _ _ earlier ∅) as [st|]; [|done].
    cbn. intros HR. by exists st.
Qed.

Lemma prefix_decides_witness :
  Demo.from_columns ([PyStr "a"] ++ [PyStr "kind__mean"]) None
  = Err (ValueError "Splitting of columnname a resulted in only one part.")
  ∧ ∃ st,
      Demo.from_columns [PyStr "k__mean"] None = Ok st
      ∧ Columns.from_columns_loop Demo.feature_calculators
          Demo.get_config_from_string [] [PyStr "k__median"] st
        = Ok {["k" := {["mean" := None; "median" := None]}]}.
Proof.
  split.
  - apply (proj1 (prefix_decides Demo.feature_calculators
                    Demo.get_config_from_string None [PyStr "a"]
                    [PyStr "kind__mean"])).
    vm_compute. reflexivity.
  - apply (proj2 (prefix_decides Demo.feature_calculators
                    Demo.get_config_from_string None [PyStr "k__mean"]
                    [PyStr "k__median"])).
    vm_compute. reflexivity.
Defined.

(** X14.  When a call returns: [from_columns] returns a mapping exactly
    when every column is skipped or is a string of two fields or more
    whose second field is an attribute of the module and whose fields the
    codec decodes, and when, for every pair, the parameterized columns of
    the pair all come before its parameterless columns. *)
Theorem from_columns_returns_iff
    (feature_calculators : registry)
    (get_config_from_string : list string → pyresult (option config))
    (columns : list pyobj) (columns_to_ignore : option (list pyobj)) :
  (∃ R,
     Columns.from_columns feature_calculators get_config_from_string
       columns columns_to_ignore = Ok R)
  ↔ Forall (Shape.column_ok feature_calculators get_config_from_string
              (default [] columns_to_ignore)) columns
    ∧ ∀ kind feature_name,
        ∃ configs1 configs2,
          Columns.configs_of get_config_from_string
            (default [] columns_to_ignore) kind feature_name columns
          = configs1 ++ configs2
          ∧ Forall (λ c, Columns.config_truthy c = true) configs1
          ∧ Forall (λ c, Columns.config_truthy c = false) configs2.
Proof.
  unfold Columns.from_columns.
  set (ign := default [] columns_to_ignore). split.
  - intros [R HR]. split; [by eapply loop_columns_ok|].
    intros k f. apply (replay_ok_iff None); [done|].
    exists (Columns.lookup2 R k f).
    by apply (loop_replay _ _ _ _ _ _ k f) in HR.
  - intros [Hcols Hpairs]. apply loop_returns; [done|].
    intros k f. by apply (replay_ok_iff None), Hpairs.
Qed.

Lemma from_columns_returns_iff_witness :
  Forall (Shape.column_ok Demo.feature_calculators
            Demo.get_config_from_string [PyStr "id"])
    [PyStr "id"; PyStr "k__quantile__q_0.1"; PyStr "k__quantile"]
  ∧ ∀ kind feature_name,
      ∃ configs1 configs2,
        Columns.configs_of Demo.get_config_from_string [PyStr "id"]
          kind feature_name
          [PyStr "id"; PyStr "k__quantile__q_0.1"; PyStr "k__quantile"]
        = configs1 ++ configs2
        ∧ Forall (λ c, Columns.config_truthy c = true) configs1
        ∧ Forall (λ c, Columns.config_truthy c = false) configs2.
Proof.
  apply (proj1 (from_columns_returns_iff Demo.feature_calculators
                  Demo.get_config_from_string
                  [PyStr "id"; PyStr "k__quantile__q_0.1";
                   PyStr "k__quantile"] (Some [PyStr "id"]))).
  eexists. vm_compute. reflexivity.
Defined.

(** ** Accumulation *)

(** C2.  Accumulation: on every input list on which the call returns, a
    pair none of whose columns is parameterless holds the decoded
    parameter dicts of its columns as one list in input-column order,
    nothing sorted and nothing dropped; the result holds a list for a pair
    in that case only.  The call returns when every column that is not
    skipped is a string of two fields or more that names an attribute of
    the module and decodes to parameters.  In particular the two
    [quantile] columns of one kind give the two dicts in that order. *)
Theorem accumulation_in_column_order
    (feature_calculators : registry)
    (get_config_from_string : list string → pyresult (option config)) :
  (∀ columns columns_to_ignore R kind feature_name L,
     Columns.from_columns feature_calculators get_config_from_string
       columns columns_to_ignore = Ok R →
     let configs :=
       Columns.configs_of get_config_from_string
         (default [] columns_to_ignore) kind feature_name columns in
     Columns.lookup2 R kind feature_name = Some (Some L)
     ↔ configs ≠ []
       ∧ Forall (λ c, Columns.config_truthy c = true) configs
       ∧ L = Columns.dicts configs)
  ∧ (∀ columns columns_to_ignore,
       Forall (Shape.column_ok feature_calculators get_config_from_string
                 (default [] columns_to_ignore)) columns →
       (∀ col kind feature_name config,
          col ∈ columns →
          Columns.column_view get_config_from_string
            (default [] columns_to_ignore) col
          = Some (kind, feature_name, config) →
          Columns.config_truthy config = true) →
       ∃ R,
         Columns.from_columns feature_calculators get_config_from_string
           columns columns_to_ignore = Ok R)
  ∧ (is_Some (feature_calculators !! "quantile") →
     get_config_from_string ["k"; "quantile"; "q_0.1"]
     = Ok (Some {["q" := VFloat 0.1]}) →
     get_config_from_string ["k"; "quantile"; "q_0.2"]
     = Ok (Some {["q" := VFloat 0.2]}) →
     Columns.from_columns feature_calculators get_config_from_string
       [PyStr "k__quantile__q_0.1"; PyStr "k__quantile__q_0.2"] None
     = Ok {["k" := {["quantile" :=
             Some [{["q" := VFloat 0.1]}; {["q" := VFloat 0.2]}] ]} ]}).
Proof.
  split; [|split].
  - intros columns ign R k f L Hret configs.
    apply (loop_replay _ _ _ _ _ _ k f) in Hret.
    change (Columns.lookup2 ∅ k f) with (@None fc_value) in Hret.
    fold configs in Hret. split.
    + intros HL. rewrite HL in Hret.
      assert (configs ≠ []) as Hne.
      { intros Hnil. by rewrite Hnil in Hret. }
      split; [done|]. by apply (replay_list_inv None).
    + intros (Hne & Hall & ->).
      rewrite (replay_truthy None) in Hret by done.
      by injection Hret as <-.
  - intros columns ign Hcols Hparams. unfold Columns.from_columns.
    apply loop_returns; [done|]. intros k f.
    apply (replay_ok_iff None); [done|].
    exists (Columns.configs_of get_config_from_string (default [] ign) k f
              columns), [].
    rewrite app_nil_r. split; [done|]. split; [|done].
    apply Forall_forall. intros c (col & Hin & Hv)%configs_of_elem.
    by apply (Hparams col k f c).
  - intros Hattr Hc1 Hc2. unfold Columns.from_columns.
    cbn [default Columns.from_columns_loop].
    assert (hasattr_module feature_calculators "quantile" = true) as Hq
      by by apply bool_decide_eq_true_2.
    rewrite (step_of_view _ _ _ _ _ "k" "quantile"
               (Some {["q" := VFloat 0.1]})).
    2:{ unfold Columns.column_view. cbn [py_in existsb].
        change (Str.split "k__quantile__q_0.1")
          with ["k"; "quantile"; "q_0.1"].
        by rewrite Hc1. }
    rewrite Hq.
    replace (Columns.record_config ∅ "k" "quantile"
               (Some {["q" := VFloat 0.1]}))
      with (Ok ({["k" := {["quantile" :=
                  Some [({["q" := VFloat 0.1]} : config)] ]} ]} : kind_to_fc))
      by (vm_compute; reflexivity).
    cbn [mbind pyresult_bind].
    rewrite (step_of_view _ _ _ _ _ "k" "quantile"
               (Some {["q" := VFloat 0.2]})).
    2:{ unfold Columns.column_view. cbn [py_in existsb].
        change (Str.split "k__quantile__q_0.2")
          with ["k"; "quantile"; "q_0.2"].
        by rewrite Hc2. }
    rewrite Hq. cbn [mbind pyresult_bind].
    vm_compute. reflexivity.
Qed.

Lemma accumulation_in_column_order_witness :
  Demo.from_columns
    [PyStr "k__quantile__q_0.1"; PyStr "k__quantile__q_0.2"] None
  = Ok {["k" := {["quantile" :=
          Some [{["q" := VFloat 0.1]}; {["q" := VFloat 0.2]}] ]} ]}
  ∧ (∃ R,
       Demo.from_columns
         [PyStr "id"; PyStr "k__quantile__q_0.2"; PyStr "k__quantile__q_0.2"]
         (Some [PyStr "id"]) = Ok R)
  ∧ ∀ R,
      Demo.from_columns
        [PyStr "k__quantile__q_0.2"; PyStr "k__mean";
         PyStr "k__quantile__q_0.1"; PyStr "k__quantile__q_0.2"] None
      = Ok R →
      Columns.lookup2 R "k" "quantile"
      = Some (Some [{["q" := VFloat 0.2]}; {["q" := VFloat 0.1]};
                    {["q" := VFloat 0.2]}]).
Proof.
  split; [|split].
  - apply (proj2 (proj2 (accumulation_in_column_order
                           Demo.feature_calculators
                           Demo.get_config_from_string))).
    + eexists. vm_compute. reflexivity.
    + vm_compute. reflexivity.
    + vm_compute. reflexivity.
  - apply (proj1 (proj2 (accumulation_in_column_order
                           Demo.feature_calculators
                           Demo.get_config_from_string))
             [PyStr "id"; PyStr "k__quantile__q_0.2";
              PyStr "k__quantile__q_0.2"] (Some [PyStr "id"])).
    + apply Forall_cons. split; [by left|].
      apply Forall_cons. split.
      { right. exists "k", "quantile", (Some {["q" := VFloat 0.2]}).
        split; vm_compute; reflexivity. }
      apply Forall_cons. split; [|by apply Forall_nil].
      right. exists "k", "quantile", (Some {["q" := VFloat 0.2]}).
      split; vm_compute; reflexivity.
    + intros col kind feature_name config Hin Hview.
      repeat (apply elem_of_cons in Hin as [->|Hin]);
        [ discriminate Hview
        | vm_compute in Hview; injection Hview as <- <- <-;
          vm_compute; reflexivity
        | vm_compute in Hview; injection Hview as <- <- <-;
          vm_compute; reflexivity
        | by apply elem_of_nil in Hin ].
  - intros R HR.
    apply (proj1 (accumulation_in_column_order Demo.feature_calculators
                    Demo.get_config_from_string) _ _ _ "k" "quantile" _ HR).
    split; [by vm_compute|]. split.
    + vm_compute. repeat constructor.
    + vm_compute. reflexivity.
Defined.

(** With a parameterless column of the pair in the input, the two decoded
    dicts are not what the call returns for the pair. *)
Lemma accumulation_counterexample :
  Demo.from_columns
    [PyStr "k__quantile__q_0.1"; PyStr "k__quantile__q_0.2";
     PyStr "k__quantile"] None
  = Ok {["k" := {["quantile" := None]}]}
  ∧ Demo.from_columns
      [PyStr "k__quantile__q_0.1"; PyStr "k__quantile__q_0.2";
       PyStr "k__quantile"] None
    ≠ Ok {["k" := {["quantile" :=
            Some [{["q" := VFloat 0.1]}; {["q" := VFloat 0.2]}] ]} ]}.
Proof.
  split.
  - vm_compute. reflexivity.
  - intros H. vm_compute in H. discriminate.
Qed.
